(** * 104_crawler_new: a shallow embedding of [104_crawler_new.py]

    The script reads [config.txt], asks the job board for one page of
    listings, fetches and flattens the detail document of every listing
    and writes the rows to a spreadsheet.  This file embeds the
    configuration reader, the two fetchers, the flattening of a detail
    document and the main loop, and states the properties that the
    written specification claims about them.

    Conventions.
    - A Python [str] is a list of Unicode code points ([pystr]); literals
      are written [u8 "..."] and decoded from the UTF-8 bytes of the
      Rocq string.
    - A value produced by [res.json()] is a [json]; a Python [dict] is an
      association list in insertion order, read through [dict_get].
    - A computation that may raise returns a [result].  The network is
      an oracle that says, for a request, what [requests.get] does with
      it; the console, the clock and the spreadsheet are a list of
      events, in the order the script causes them. *)

From Stdlib Require Import List ZArith NArith Bool Ascii String Lia.
From Stdlib Require Import Floats.PrimFloat.
Import ListNotations.

Set Implicit Arguments.

(* ================================================================= *)
(** ** Python strings *)

Module PyStr.

Local Open Scope N_scope.

(** A Python string: its code points. *)
Definition pystr := list N.

(** Decoder of the UTF-8 bytes of a literal: [need] continuation bytes
    are still expected for the code point accumulated in [acc]. *)
Fixpoint utf8_points (bs : list N) (need : nat) (acc : N) : pystr :=
  match bs with
  | [] => []
  | b :: rest =>
      match need with
      | O =>
          if b <? 128 then b :: utf8_points rest 0 0
          else if b <? 224 then utf8_points rest 1 (b - 192)
          else if b <? 240 then utf8_points rest 2 (b - 224)
          else utf8_points rest 3 (b - 240)
      | S O => (acc * 64 + (b - 128)) :: utf8_points rest 0 0
      | S n => utf8_points rest n (acc * 64 + (b - 128))
      end
  end.

Definition u8 (s : string) : pystr :=
  utf8_points (List.map N_of_ascii (list_ascii_of_string s)) 0 0.

Fixpoint pystr_eqb (a b : pystr) : bool :=
  match a, b with
  | [], [] => true
  | x :: a', y :: b' => (x =? y) && pystr_eqb a' b'
  | _, _ => false
  end.

(** [str.isspace] for one code point, as CPython's [_PyUnicode_IsWhitespace]. *)
Definition isspace (c : N) : bool :=
  ((9 <=? c) && (c <=? 13)) || ((28 <=? c) && (c <=? 32))
  || (c =? 133) || (c =? 160) || (c =? 5760)
  || ((8192 <=? c) && (c <=? 8202))
  || (c =? 8232) || (c =? 8233) || (c =? 8239) || (c =? 8287)
  || (c =? 12288).

Fixpoint lstrip (s : pystr) : pystr :=
  match s with
  | [] => []
  | c :: r => if isspace c then lstrip r else s
  end.

Definition rstrip (s : pystr) : pystr := rev (lstrip (rev s)).

(** [s.strip()] *)
Definition strip (s : pystr) : pystr := rstrip (lstrip s).

(** [sep in s] for a separator of one code point. *)
Definition contains (sep : N) (s : pystr) : bool := existsb (N.eqb sep) s.

(** [s.startswith(c)] for a prefix of one code point. *)
Definition startswith (c : N) (s : pystr) : bool :=
  match s with
  | [] => false
  | x :: _ => x =? c
  end.

(** [s.split(sep)] for a separator of one code point. *)
Fixpoint split (sep : N) (s : pystr) : list pystr :=
  match s with
  | [] => [[]]
  | c :: r =>
      if c =? sep then [] :: split sep r
      else match split sep r with
           | w :: ws => (c :: w) :: ws
           | [] => [[c]]
           end
  end.

(** [s.split(sep, 1)]: at most one cut, at the first separator. *)
Fixpoint split1 (sep : N) (s : pystr) : list pystr :=
  match s with
  | [] => [[]]
  | c :: r =>
      if c =? sep then [[]; r]
      else match split1 sep r with
           | w :: ws => (c :: w) :: ws
           | [] => [[c]]
           end
  end.

(** [sep.join(l)] on strings. *)
Fixpoint join (sep : pystr) (l : list pystr) : pystr :=
  match l with
  | [] => []
  | x :: r =>
      match r with
      | [] => x
      | _ :: _ => x ++ sep ++ join sep r
      end
  end.

(** [s.replace("\r\n", " ")] *)
Fixpoint replace_crlf (s : pystr) : pystr :=
  match s with
  | [] => []
  | c :: r =>
      match r with
      | d :: r' =>
          if (c =? 13) && (d =? 10) then 32 :: replace_crlf r'
          else c :: replace_crlf r
      | [] => [c]
      end
  end.

(** Iteration over a text file opened with universal newlines: the lines,
    each with its terminator translated to a line feed. *)
Fixpoint readlines (cur : pystr) (s : pystr) : list pystr :=
  match s with
  | [] => match cur with [] => [] | _ :: _ => [cur] end
  | c :: r =>
      if c =? 10 then (cur ++ [10]) :: readlines [] r
      else if c =? 13 then
        match r with
        | d :: r' =>
            if d =? 10 then (cur ++ [10]) :: readlines [] r'
            else (cur ++ [10]) :: readlines [] r
        | [] => [cur ++ [10]]
        end
      else readlines (cur ++ [c]) r
  end.

(** Decimal digits of a number, for formatted messages. *)
Fixpoint digits (d : Decimal.uint) : pystr :=
  match d with
  | Decimal.Nil => []
  | Decimal.D0 r => 48 :: digits r
  | Decimal.D1 r => 49 :: digits r
  | Decimal.D2 r => 50 :: digits r
  | Decimal.D3 r => 51 :: digits r
  | Decimal.D4 r => 52 :: digits r
  | Decimal.D5 r => 53 :: digits r
  | Decimal.D6 r => 54 :: digits r
  | Decimal.D7 r => 55 :: digits r
  | Decimal.D8 r => 56 :: digits r
  | Decimal.D9 r => 57 :: digits r
  end.

Definition str_of_nat (n : nat) : pystr := digits (Nat.to_uint n).

Definition str_of_Z (z : Z) : pystr :=
  match z with
  | Z0 => [48]
  | Zpos p => digits (Pos.to_uint p)
  | Zneg p => 45 :: digits (Pos.to_uint p)
  end.

End PyStr.
Export PyStr.

(* ================================================================= *)
(** ** Exceptions and results *)

Inductive exn_class :=
| ValueError | AttributeError | TypeError | KeyError | OverflowError
| HTTPError | ConnectionError | JSONDecodeError | FileNotFoundError.

(** An exception: its class and the text [str(e)] gives. *)
Record exn := Exn { exn_kind : exn_class; exn_text : pystr }.

Inductive result (A : Type) :=
| Ok (a : A)
| Raise (e : exn).
Arguments Ok {A} a.
Arguments Raise {A} e.

Definition bind {A B} (c : result A) (k : A -> result B) : result B :=
  match c with
  | Ok a => k a
  | Raise e => Raise e
  end.

Notation "x <- c ;; k" := (bind c (fun x => k))
  (at level 61, c at next level, right associativity).

(* ================================================================= *)
(** ** JSON values and the operations the script applies to them *)

#[warnings="-register-all"]
Inductive json :=
| JNull
| JBool (b : bool)
| JInt (z : Z)
| JFloat (f : float)
| JStr (s : pystr)
| JList (l : list json)
| JObj (d : list (pystr * json)).

Definition dict (V : Type) := list (pystr * V).

Fixpoint dict_get {V} (d : dict V) (k : pystr) : option V :=
  match d with
  | [] => None
  | (k', v) :: r => if pystr_eqb k' k then Some v else dict_get r k
  end.

(** [d[k] = v]: a present key keeps its place, a new one goes last. *)
Fixpoint dict_set {V} (d : dict V) (k : pystr) (v : V) : dict V :=
  match d with
  | [] => [(k, v)]
  | (k', v') :: r =>
      if pystr_eqb k' k then (k', v) :: r else (k', v') :: dict_set r k v
  end.

(** [bool(v)] *)
Definition truthy (v : json) : bool :=
  match v with
  | JNull => false
  | JBool b => b
  | JInt z => negb (z =? 0)%Z
  | JFloat f => negb (PrimFloat.eqb f 0%float)
  | JStr s => match s with [] => false | _ :: _ => true end
  | JList l => match l with [] => false | _ :: _ => true end
  | JObj d => match d with [] => false | _ :: _ => true end
  end.

(** [type(v).__name__] *)
Definition type_name (v : json) : pystr :=
  match v with
  | JNull => u8 "NoneType"
  | JBool _ => u8 "bool"
  | JInt _ => u8 "int"
  | JFloat _ => u8 "float"
  | JStr _ => u8 "str"
  | JList _ => u8 "list"
  | JObj _ => u8 "dict"
  end.

Definition no_attribute (v : json) (attr : pystr) : exn :=
  Exn AttributeError
      (u8 "'" ++ type_name v ++ u8 "' object has no attribute '" ++ attr ++ u8 "'").

(** [v.get(k, dflt)] *)
Definition py_get (v : json) (k : pystr) (dflt : json) : result json :=
  match v with
  | JObj d => Ok (match dict_get d k with Some x => x | None => dflt end)
  | _ => Raise (no_attribute v (u8 "get"))
  end.

(** [v[k]] for a string key [k]. *)
Definition py_index (v : json) (k : pystr) : result json :=
  match v with
  | JObj d =>
      match dict_get d k with
      | Some x => Ok x
      | None => Raise (Exn KeyError (u8 "'" ++ k ++ u8 "'"))
      end
  | JList _ => Raise (Exn TypeError (u8 "list indices must be integers or slices, not str"))
  | JStr _ => Raise (Exn TypeError (u8 "string indices must be integers, not 'str'"))
  | _ => Raise (Exn TypeError (u8 "'" ++ type_name v ++ u8 "' object is not subscriptable"))
  end.

(** The items a [for] loop visits. *)
Definition py_iter (v : json) : result (list json) :=
  match v with
  | JList l => Ok l
  | JStr s => Ok (List.map (fun c => JStr [c]) s)
  | JObj d => Ok (List.map (fun kv => JStr (fst kv)) d)
  | _ => Raise (Exn TypeError (u8 "'" ++ type_name v ++ u8 "' object is not iterable"))
  end.

(** [sep.join(l)] on a list of values: every item has to be a [str]. *)
Fixpoint py_join_from (i : nat) (l : list json) : result (list pystr) :=
  match l with
  | [] => Ok []
  | JStr s :: r => ss <- py_join_from (S i) r ;; Ok (s :: ss)
  | v :: _ =>
      Raise (Exn TypeError
                 (u8 "sequence item " ++ str_of_nat i ++ u8 ": expected str instance, "
                     ++ type_name v ++ u8 " found"))
  end.

Definition py_join (sep : pystr) (l : list json) : result pystr :=
  ss <- py_join_from 0 l ;; Ok (join sep ss).

(** [v.replace("\r\n", " ").strip()] *)
Definition py_replace_strip (v : json) : result json :=
  match v with
  | JStr s => Ok (JStr (strip (replace_crlf s)))
  | _ => Raise (no_attribute v (u8 "replace"))
  end.

(** [a or b], where evaluating [b] may raise. *)
Definition py_or (a : json) (b : result json) : result json :=
  if truthy a then Ok a else b.

(** What the interpreter does with values that are not strings is not
    part of the script: the text [str] gives for them and the result of
    [+] on them are taken as given. *)
Class Builtins := {
  str_other : json -> pystr;
  add_other : json -> json -> result json
}.

Section WithBuiltins.
Context {B : Builtins}.

(** [str(v)], also what an f-string puts for [{v}]. *)
Definition py_str (v : json) : pystr :=
  match v with
  | JStr s => s
  | _ => str_other v
  end.

(** [a + b] *)
Definition py_add (a b : json) : result json :=
  match a, b with
  | JStr x, JStr y => Ok (JStr (x ++ y))
  | _, _ => add_other a b
  end.

End WithBuiltins.

(* ================================================================= *)
(** ** The region table and the configuration reader *)

Definition AREA_CODES : dict pystr :=
  [ (u8 "台北市", u8 "6001001000");
    (u8 "新北市", u8 "6001002000");
    (u8 "桃園市", u8 "6001003000");
    (u8 "台中市", u8 "6001004000");
    (u8 "高雄市", u8 "6001005000");
    (u8 "台南市", u8 "6001006000");
    (u8 "新竹縣", u8 "6001007000");
    (u8 "新竹市", u8 "6001008000");
    (u8 "苗栗縣", u8 "6001009000");
    (u8 "彰化縣", u8 "6001011000");
    (u8 "雲林縣", u8 "6001012000");
    (u8 "嘉義市", u8 "6001010000");
    (u8 "嘉義縣", u8 "6001011000");
    (u8 "屏東縣", u8 "6001013000");
    (u8 "宜蘭縣", u8 "6001015000");
    (u8 "花蓮縣", u8 "6001014000");
    (u8 "台東縣", u8 "6001016000");
    (u8 "基隆市", u8 "6001017000");
    (u8 "南投縣", u8 "6001018000");
    (u8 "澎湖縣", u8 "6001019000");
    (u8 "金門縣", u8 "6001020000");
    (u8 "連江縣", u8 "6001021000") ].

(** What [read_config] has built so far: the parameters and the lines it
    has printed. *)
Record config_state := ConfigState {
  params : dict pystr;
  printed : list pystr
}.

Definition unknown_area_line (a : pystr) : pystr :=
  u8 "⚠️ 無法辨識地區名稱：" ++ a.

(** The loop over [areas]: the codes found, and a line for each name the
    table does not have. *)
Fixpoint area_codes (areas : list pystr) : list pystr * list pystr :=
  match areas with
  | [] => ([], [])
  | a :: rest =>
      let (codes, lines) := area_codes rest in
      match dict_get AREA_CODES a with
      | Some c => (c :: codes, lines)
      | None => (codes, unknown_area_line a :: lines)
      end
  end.

(** The body of the loop over the lines of the file. *)
Definition config_line (st : config_state) (line : pystr) : result config_state :=
  let line := strip line in
  if match line with [] => true | _ :: _ => false end || startswith 35 line then Ok st
  else if negb (contains 61 line) then Ok st
  else
    match split1 61 line with
    | [key; value] =>
        let value := strip value in
        let (value, lines) :=
          if pystr_eqb key (u8 "area") then
            let (codes, lines) := area_codes (List.map strip (split 44 value)) in
            (join (u8 ",") codes, lines)
          else (value, []) in
        Ok {| params := dict_set (params st) (strip key) value;
              printed := printed st ++ lines |}
    | _ => Raise (Exn ValueError (u8 "not enough values to unpack (expected 2, got 1)"))
    end.

Fixpoint config_lines (st : config_state) (lines : list pystr) : result config_state :=
  match lines with
  | [] => Ok st
  | line :: rest => st' <- config_line st line ;; config_lines st' rest
  end.

(** [read_config(filename)], given what [filename] holds ([None]: there
    is no such file). *)
Definition read_config (filename : pystr) (file : option pystr) : result config_state :=
  match file with
  | None =>
      Raise (Exn FileNotFoundError
                 (u8 "[Errno 2] No such file or directory: '" ++ filename ++ u8 "'"))
  | Some text => config_lines (ConfigState [] []) (readlines [] text)
  end.

(* ================================================================= *)
(** ** Requests and responses *)

Record request := Request {
  req_url : pystr;
  req_headers : dict pystr;
  req_params : dict pystr
}.

Record response := Response {
  resp_url : pystr;
  status_code : Z;
  reason : pystr;
  resp_json : result json   (* what [res.json()] returns or raises *)
}.

(** What [requests.get] does: it raises, or it returns a response. *)
Definition http_outcome := result response.

Definition raise_for_status (res : response) : result unit :=
  let msg kind :=
    str_of_Z (status_code res) ++ kind ++ reason res ++ u8 " for url: " ++ resp_url res in
  if ((400 <=? status_code res) && (status_code res <? 500))%Z
  then Raise (Exn HTTPError (msg (u8 " Client Error: ")))
  else if ((500 <=? status_code res) && (status_code res <? 600))%Z
  then Raise (Exn HTTPError (msg (u8 " Server Error: ")))
  else Ok tt.

Definition USER_AGENT : pystr :=
  u8 "Mozilla/5.0 (Macintosh; Intel Mac OS X 10_15_7) " ++
  u8 "AppleWebKit/605.1.15 (KHTML, like Gecko) " ++
  u8 "Version/17.0 Safari/605.1.15".

Definition job_list_request (params : dict pystr) : request :=
  {| req_url := u8 "https://www.104.com.tw/jobs/search/list";
     req_headers := [ (u8 "Referer", u8 "https://www.104.com.tw/jobs/search/");
                      (u8 "User-Agent", USER_AGENT) ];
     req_params := params |}.

(** [fetch_job_list(params)] *)
Definition fetch_job_list (web : request -> http_outcome) (params : dict pystr)
  : result json :=
  res <- web (job_list_request params) ;;
  _ <- raise_for_status res ;;
  data <- resp_json res ;;
  d <- py_index data (u8 "data") ;;
  py_index d (u8 "list").

(* ================================================================= *)
(** ** The detail fetcher and the flattening of a detail document *)

(** [job_id.split("?")[0].split("/")[-1]] *)
Definition item_identifier (job_id : json) : result pystr :=
  match job_id with
  | JStr s => Ok (last (split 47 (hd [] (split 63 s))) [])
  | _ => Raise (no_attribute job_id (u8 "split"))
  end.

Definition job_url (job_id : pystr) : pystr :=
  u8 "https://www.104.com.tw/job/" ++ job_id.

Definition job_detail_request (job_id : pystr) : request :=
  {| req_url := u8 "https://www.104.com.tw/job/ajax/content/" ++ job_id;
     req_headers := [ (u8 "Referer", job_url job_id);
                      (u8 "User-Agent", USER_AGENT) ];
     req_params := [] |}.

Definition WITHDRAWN : pystr := u8 "此職缺資料不完整或已下架".

(** From [requests.get] to [info = data["data"]]: the document the rest
    of [fetch_job_detail] flattens. *)
Definition detail_document (o : http_outcome) : result json :=
  res <- o ;;
  _ <- raise_for_status res ;;
  data <- resp_json res ;;
  d <- py_get data (u8 "data") JNull ;;
  if truthy d then Ok d else Raise (Exn ValueError WITHDRAWN).

Definition UNKNOWN_COMPANY : pystr := u8 "（未知公司）".
Definition UNNAMED_JOB : pystr := u8 "（未命名職缺）".
Definition UNSPECIFIED : pystr := u8 "未指定".

(** The keys of [job_data], in the order of the literal. *)
Definition COLUMNS : list pystr :=
  [ u8 "公司名稱"; u8 "職缺名稱"; u8 "地點"; u8 "工作經歷"; u8 "學歷";
    u8 "語言能力"; u8 "擅長工具"; u8 "工作技能"; u8 "薪資"; u8 "福利";
    u8 "職缺需求人數"; u8 "工作內容"; u8 "其他條件"; u8 "職缺更新日期";
    u8 "職缺連結" ].

Section Flatten.
Context {B : Builtins}.

(** [info.get("custName") or cust.get("custName") or header.get("custName")
    or "（未知公司）"] *)
Definition company_name_of (info cust header : json) : result json :=
  a <- py_get info (u8 "custName") JNull ;;
  py_or a (b <- py_get cust (u8 "custName") JNull ;;
  py_or b (c <- py_get header (u8 "custName") JNull ;;
  py_or c (Ok (JStr UNKNOWN_COMPANY)))).

(** [detail.get("jobName") or header.get("jobName") or info.get("jobName")
    or "（未命名職缺）"] *)
Definition job_name_of (info detail header : json) : result json :=
  a <- py_get detail (u8 "jobName") JNull ;;
  py_or a (b <- py_get header (u8 "jobName") JNull ;;
  py_or b (c <- py_get info (u8 "jobName") JNull ;;
  py_or c (Ok (JStr UNNAMED_JOB)))).

(** The loop that fills [lang_list]. *)
Fixpoint lang_list_of (items : list json) : result (list json) :=
  match items with
  | [] => Ok []
  | lang :: rest =>
      lang_item <- py_get lang (u8 "language") (JStr []) ;;
      ability <- py_get lang (u8 "ability") (JStr []) ;;
      tail <- lang_list_of rest ;;
      Ok (if truthy lang_item
          then (if truthy ability
                then JStr (py_str lang_item ++ u8 ":" ++ py_str ability)
                else lang_item) :: tail
          else tail)
  end.

(** [language]: the loop over [condition.get("language", [])] and the
    join of what it appended. *)
Definition language_of (condition : json) : result json :=
  l <- py_get condition (u8 "language") (JList []) ;;
  items <- py_iter l ;;
  lang_list <- lang_list_of items ;;
  match lang_list with
  | [] => Ok (JStr UNSPECIFIED)
  | _ :: _ => s <- py_join (u8 ", ") lang_list ;; Ok (JStr s)
  end.

(** [[sp.get("desc", "") for sp in items if sp.get("desc")]] *)
Fixpoint desc_list_of (items : list json) : result (list json) :=
  match items with
  | [] => Ok []
  | sp :: rest =>
      d <- py_get sp (u8 "desc") JNull ;;
      if truthy d
      then v <- py_get sp (u8 "desc") (JStr []) ;;
           tail <- desc_list_of rest ;;
           Ok (v :: tail)
      else desc_list_of rest
  end.

(** The block shared by [specialty] ([key = "specialty"]) and [skills]
    ([key = "skill"]). *)
Definition described_of (condition detail : json) (key : pystr) : result json :=
  c <- py_get condition key JNull ;;
  v <- match c with
       | JList l =>
           ds <- desc_list_of l ;;
           s <- py_join (u8 ", ") ds ;;
           Ok (JStr s)
       | JStr s => Ok (JStr s)
       | _ =>
           d <- py_get detail key JNull ;;
           Ok (if truthy d then d else JStr [])
       end ;;
  Ok (if truthy v then v else JStr UNSPECIFIED).

(** [other_condition]: the [or] chain over [condition.get("other")],
    [detail.get("otherCondition")] and [info.get("requirement", {}).get("other")],
    then [str(...).replace("\r\n", " ").strip()]. *)
Definition other_condition_of (info condition detail : json) : result json :=
  a <- py_get condition (u8 "other") JNull ;;
  v <- py_or a (b <- py_get detail (u8 "otherCondition") JNull ;;
       py_or b (r <- py_get info (u8 "requirement") (JObj []) ;;
                c <- py_get r (u8 "other") JNull ;;
       py_or c (Ok (JStr [])))) ;;
  Ok (JStr (strip (replace_crlf (py_str v)))).

(** [fetch_job_detail] from [header = info.get("header", {})] on. *)
Definition normalize (info : json) (job_id : pystr) : result (dict json) :=
  header <- py_get info (u8 "header") (JObj []) ;;
  detail <- py_get info (u8 "jobDetail") (JObj []) ;;
  condition <- py_get info (u8 "condition") (JObj []) ;;
  cust <- py_get info (u8 "custInfo") (JObj []) ;;
  welfare <- py_get info (u8 "welfare") (JObj []) ;;
  company_name <- company_name_of info cust header ;;
  job_name <- job_name_of info detail header ;;
  language <- language_of condition ;;
  specialty <- described_of condition detail (u8 "specialty") ;;
  skills <- described_of condition detail (u8 "skill") ;;
  other_condition <- other_condition_of info condition detail ;;
  region <- (a <- py_get detail (u8 "addressRegion") (JStr []) ;; py_or a (Ok (JStr []))) ;;
  address <- (a <- py_get detail (u8 "addressDetail") (JStr []) ;; py_or a (Ok (JStr []))) ;;
  place <- py_add region address ;;
  work_exp <- py_get condition (u8 "workExp") (JStr []) ;;
  edu <- py_get condition (u8 "edu") (JStr []) ;;
  salary <- py_get detail (u8 "salary") (JStr []) ;;
  benefits <- py_get welfare (u8 "welfare") (JStr []) ;;
  need_emp <- py_get detail (u8 "needEmp") (JStr []) ;;
  description <- (a <- py_get detail (u8 "jobDescription") (JStr []) ;;
                  t <- py_or a (Ok (JStr [])) ;;
                  py_replace_strip t) ;;
  appear_date <- py_get header (u8 "appearDate") (JStr []) ;;
  Ok [ (u8 "公司名稱", company_name);
       (u8 "職缺名稱", job_name);
       (u8 "地點", place);
       (u8 "工作經歷", work_exp);
       (u8 "學歷", edu);
       (u8 "語言能力", language);
       (u8 "擅長工具", specialty);
       (u8 "工作技能", skills);
       (u8 "薪資", salary);
       (u8 "福利", benefits);
       (u8 "職缺需求人數", need_emp);
       (u8 "工作內容", description);
       (u8 "其他條件", other_condition);
       (u8 "職缺更新日期", appear_date);
       (u8 "職缺連結", JStr (job_url job_id)) ].

(** What the console, the network and the clock see of a run. *)
Inductive event :=
| EvGet (r : request)
| EvPrint (line : pystr)
| EvSleep (seconds : Z)
| EvToExcel (path : pystr) (rows : list (dict json)).

(** [fetch_job_detail(job_id)]: the request it sends, if it gets that
    far, and what it returns or raises. *)
Definition fetch_job_detail (web : request -> http_outcome) (job_id : json)
  : list event * result (dict json) :=
  match item_identifier job_id with
  | Raise e => ([], Raise e)
  | Ok id =>
      ([EvGet (job_detail_request id)],
       info <- detail_document (web (job_detail_request id)) ;;
       normalize info id)
  end.

(* ================================================================= *)
(** ** The main program *)

(** [job_data[key]] in the success line: the key is always there. *)
Definition column (job_data : dict json) (key : pystr) : json :=
  match dict_get job_data key with
  | Some v => v
  | None => JNull
  end.

Definition fetched_line (job_data : dict json) : pystr :=
  u8 "✅ 已抓取：" ++ py_str (column job_data (u8 "職缺名稱"))
     ++ u8 " - " ++ py_str (column job_data (u8 "公司名稱")).

Definition skipped_line (job_id : json) (e : exn) : pystr :=
  u8 "⚠️ 跳過職缺：" ++ py_str job_id ++ u8 "，原因：" ++ exn_text e.

(** [job["link"]["job"]] *)
Definition job_link (job : json) : result json :=
  l <- py_index job (u8 "link") ;; py_index l (u8 "job").

(** The loop over [job_list]: the events in order, and [all_jobs] at the
    end or the exception that left the loop. *)
Fixpoint crawl (web : request -> http_outcome) (job_list : list json)
    (all_jobs : list (dict json)) : list event * result (list (dict json)) :=
  match job_list with
  | [] => ([], Ok all_jobs)
  | job :: rest =>
      match job_link job with
      | Raise e => ([], Raise e)
      | Ok job_id =>
          let (sent, r) := fetch_job_detail web job_id in
          match r with
          | Ok job_data =>
              let (later, out) := crawl web rest (all_jobs ++ [job_data]) in
              (sent ++ [EvPrint (fetched_line job_data); EvSleep 1] ++ later, out)
          | Raise e =>
              let (later, out) := crawl web rest all_jobs in
              (sent ++ [EvPrint (skipped_line job_id e)] ++ later, out)
          end
      end
  end.

Definition DONE_LINE : pystr := [10%N] ++ u8 "🎉 已完成，結果已存到 104_jobs.xlsx".
Definition NOTHING_LINE : pystr := u8 "❌ 沒有成功抓取到任何職缺。".

(** The last block of the script. *)
Definition save (all_jobs : list (dict json)) : list event :=
  match all_jobs with
  | _ :: _ => [EvToExcel (u8 "104_jobs.xlsx") all_jobs; EvPrint DONE_LINE]
  | [] => [EvPrint NOTHING_LINE]
  end.

(** The script: the events of the run and the exception that ended it,
    if one did. *)
Definition main (config_txt : option pystr) (web : request -> http_outcome)
  : list event * option exn :=
  match read_config (u8 "config.txt") config_txt with
  | Raise e => ([], Some e)
  | Ok st =>
      let shown := List.map EvPrint (printed st) in
      let asked := [EvGet (job_list_request (params st))] in
      match (l <- fetch_job_list web (params st) ;; py_iter l) with
      | Raise e => (shown ++ asked, Some e)
      | Ok job_list =>
          let (evs, out) := crawl web job_list [] in
          match out with
          | Raise e => (shown ++ asked ++ evs, Some e)
          | Ok all_jobs => (shown ++ asked ++ evs ++ save all_jobs, None)
          end
      end
  end.

End Flatten.

(** One interpreter, to run the model on closed inputs: the text of
    [None], of the booleans and of the integers and the sum of two
    integers are Python's; the closed inputs below use nothing else. *)
Definition plain_builtins : Builtins :=
  {| str_other := fun v =>
       match v with
       | JNull => u8 "None"
       | JBool true => u8 "True"
       | JBool false => u8 "False"
       | JInt z => str_of_Z z
       | _ => u8 "<" ++ type_name v ++ u8 ">"
       end;
     add_other := fun a b =>
       match a, b with
       | JInt x, JInt y => Ok (JInt (x + y))
       | _, _ =>
           Raise (Exn TypeError
                      (u8 "unsupported operand type(s) for +: '" ++ type_name a
                          ++ u8 "' and '" ++ type_name b ++ u8 "'"))
       end |}.

(* ================================================================= *)
(** * What the specification says, as definitions *)

(** The codes of [areas] in order, the names outside the table left out:
    what the specification asks of the region filter. *)
Definition known_codes (areas : list pystr) : list pystr :=
  flat_map (fun a => match dict_get AREA_CODES a with
                     | Some c => [c]
                     | None => []
                     end) areas.

(** The names of [areas] the table does not have. *)
Definition unknown_names (areas : list pystr) : list pystr :=
  filter (fun a => match dict_get AREA_CODES a with
                   | Some _ => false
                   | None => true
                   end) areas.

(** The pairs of distinct names with one code, by running over the table. *)
Definition shared_codes : list (pystr * pystr) :=
  flat_map (fun p =>
    flat_map (fun q =>
      if pystr_eqb (snd p) (snd q) && negb (pystr_eqb (fst p) (fst q))
      then [(fst p, fst q)] else []) AREA_CODES) AREA_CODES.

(** A field of a JSON object: nothing when the value is not an object or
    has no such key. *)
Definition field (v : json) (k : pystr) : option json :=
  match v with
  | JObj d => dict_get d k
  | _ => None
  end.

(** A section of the document; a document without the section is read
    as one whose section is empty. *)
Definition section_of (info : json) (name : pystr) : json :=
  match field info name with
  | Some s => s
  | None => JObj []
  end.

(** A source of a fallback chain is populated when it is present and not
    empty ([None], [False], zero, the empty string, list and object are
    empty). *)
Definition populated (o : option json) : bool :=
  match o with
  | Some v => truthy v
  | None => false
  end.

(** A prioritized fallback chain: the first populated source, or the
    placeholder. *)
Fixpoint first_populated (sources : list (option json)) (placeholder : json) : json :=
  match sources with
  | [] => placeholder
  | Some v :: rest => if truthy v then v else first_populated rest placeholder
  | None :: rest => first_populated rest placeholder
  end.

(** The five sections [fetch_job_detail] reads. *)
Definition SECTIONS : list pystr :=
  [ u8 "header"; u8 "jobDetail"; u8 "condition"; u8 "custInfo"; u8 "welfare" ].

(** A top-level name that is absent, empty or a string. *)
Definition string_or_empty (o : option json) : Prop :=
  match o with
  | None => True
  | Some (JStr _) => True
  | Some v => truthy v = false
  end.

(** A top-level section that is absent or an object. *)
Definition mapping_or_absent (o : option json) : Prop :=
  match o with
  | None => True
  | Some (JObj _) => True
  | Some _ => False
  end.

(** A document whose five sections are present and empty. *)
Definition EMPTY_SECTIONS : dict json :=
  [ (u8 "header", JObj []); (u8 "jobDetail", JObj []); (u8 "condition", JObj []);
    (u8 "custInfo", JObj []); (u8 "welfare", JObj []) ].

(** What a run of a computation returned, for closed examples. *)
Definition returned {A} (r : result A) (dflt : A) : A :=
  match r with
  | Ok a => a
  | Raise _ => dflt
  end.

Section Texts.
Context {B : Builtins}.

(** A subfield of a list entry, the empty string when it is not there. *)
Definition entry_field (e : json) (k : pystr) : json :=
  match field e k with
  | Some v => v
  | None => JStr []
  end.

(** An entry of the language list: "language:ability" when an ability is
    given, just "language" otherwise. *)
Definition format_entry (e : json) : pystr :=
  if truthy (entry_field e (u8 "ability"))
  then py_str (entry_field e (u8 "language")) ++ u8 ":"
         ++ py_str (entry_field e (u8 "ability"))
  else py_str (entry_field e (u8 "language")).

(** The item such an entry puts in the list that is joined: the string
    above, or the language as it is when there is no ability. *)
Definition appended (e : json) : json :=
  if truthy (entry_field e (u8 "ability"))
  then JStr (py_str (entry_field e (u8 "language")) ++ u8 ":"
               ++ py_str (entry_field e (u8 "ability")))
  else entry_field e (u8 "language").

(** The language field as the specification words it: every entry is
    formatted, and the placeholder stands for an empty list. *)
Definition language_as_stated (entries : list json) : pystr :=
  match entries with
  | [] => UNSPECIFIED
  | _ :: _ => join (u8 ", ") (List.map format_entry entries)
  end.

(** The entries that name a language. *)
Definition named_languages (entries : list json) : list json :=
  filter (fun e => truthy (entry_field e (u8 "language"))) entries.

(** The language field, amended: only the entries that name a language
    are formatted, and the placeholder stands for none of them. *)
Definition language_text (entries : list json) : pystr :=
  match named_languages entries with
  | [] => UNSPECIFIED
  | _ :: _ => join (u8 ", ") (List.map format_entry (named_languages entries))
  end.

(** The three-way dispatch as the specification words it, on the field
    of the eligibility section and the field of the job-detail section:
    a list gives the join of every entry's description. *)
Definition described_as_stated (c d : option json) : json :=
  let v :=
    match c with
    | Some (JList l) =>
        JStr (join (u8 ", ") (List.map (fun e => py_str (entry_field e (u8 "desc"))) l))
    | Some (JStr s) => JStr s
    | _ => match d with Some x => x | None => JStr [] end
    end in
  if truthy v then v else JStr UNSPECIFIED.

(** The descriptions of a list that are not empty. *)
Definition descriptions (l : list json) : list json :=
  filter truthy (List.map (fun e => entry_field e (u8 "desc")) l).

(** The three-way dispatch, amended: a list gives the join of the
    descriptions that are not empty. *)
Definition described_text (c d : option json) : json :=
  let v :=
    match c with
    | Some (JList l) => JStr (join (u8 ", ") (List.map py_str (descriptions l)))
    | Some (JStr s) => JStr s
    | _ => match d with Some x => x | None => JStr [] end
    end in
  if truthy v then v else JStr UNSPECIFIED.

End Texts.

(** Scenario B of the specification. *)
Definition SCENARIO_B : list json :=
  [ JObj [(u8 "language", JStr (u8 "English")); (u8 "ability", JStr (u8 "Fluent"))];
    JObj [(u8 "language", JStr (u8 "Japanese")); (u8 "ability", JStr [])] ].

(** A language entry that gives an ability and no language. *)
Definition ABILITY_ONLY : list json :=
  [ JObj [(u8 "language", JStr []); (u8 "ability", JStr (u8 "Fluent"))] ].

(** A list of descriptions with an empty one in the middle. *)
Definition GAPPED : list json :=
  [ JObj [(u8 "desc", JStr (u8 "Excel"))];
    JObj [(u8 "desc", JStr [])];
    JObj [(u8 "desc", JStr (u8 "Word"))] ].

Definition with_condition (k : pystr) (v : json) : json :=
  JObj [(u8 "condition", JObj [(k, v)])].

Section Runs.
Context {B : Builtins}.






End Runs.

(** A listing as the search endpoint gives it. *)
Definition listing (ref : pystr) : json :=
  JObj [(u8 "link", JObj [(u8 "job", JStr ref)])].

(** A job board on which the listing [gone] is withdrawn and every other
    listing has a document with empty sections. *)
Definition SAMPLE_WEB (r : request) : http_outcome :=
  if pystr_eqb (req_url r) (u8 "https://www.104.com.tw/job/ajax/content/gone")
  then Ok (Response (req_url r) 200 (u8 "OK") (Ok (JObj [(u8 "data", JObj [])])))
  else Ok (Response (req_url r) 200 (u8 "OK")
                    (Ok (JObj [(u8 "data", JObj EMPTY_SECTIONS)]))).

Definition GONE : json := listing (u8 "//www.104.com.tw/job/gone?jobsource=joblist").
Definition OPEN1 : json := listing (u8 "//www.104.com.tw/job/open1?jobsource=joblist").
Definition OPEN2 : json := listing (u8 "//www.104.com.tw/job/open2?jobsource=joblist").

(** A job board whose search answers with the given listings and whose
    detail endpoint is [SAMPLE_WEB]. *)
Definition BOARD (listings : list json) (r : request) : http_outcome :=
  if pystr_eqb (req_url r) (u8 "https://www.104.com.tw/jobs/search/list")
  then Ok (Response (req_url r) 200 (u8 "OK")
                    (Ok (JObj [(u8 "data", JObj [(u8 "list", JList listings)])])))
  else SAMPLE_WEB r.

(** A string with no whitespace at either end. *)
Definition trimmed (s : pystr) : Prop :=
  (forall c r, s = c :: r -> isspace c = false) /\
  (forall r c, s = r ++ [c] -> isspace c = false).

(** A carriage return directly followed by a line feed somewhere in the
    string. *)
Fixpoint has_crlf (s : pystr) : bool :=
  match s with
  | [] => false
  | c :: r =>
      match r with
      | d :: _ => ((c =? 13)%N && (d =? 10)%N) || has_crlf r
      | [] => false
      end
  end.

(** A line of the configuration file that [read_config] does not pass
    over: not blank, not a comment, with an ['=']. *)
Definition effective (line : pystr) : bool :=
  match strip line with
  | [] => false
  | c :: _ => negb (c =? 35)%N && contains 61 (strip line)
  end.

(** What [read_config] keeps true of [params]: no key twice, no ['='] in
    a key, and no whitespace around a key or a value. *)
Definition well_kept (d : dict pystr) : Prop :=
  NoDup (List.map fst d) /\
  forall k v, In (k, v) d -> contains 61 k = false /\ trimmed k /\ trimmed v.

(** The names of an [area] value: cut at the commas, each one stripped. *)
Definition area_names (value : pystr) : list pystr :=
  List.map strip (split 44 (strip value)).

(** [v or ""] for a field read with the default [""]. *)
Definition or_empty (o : option json) : json :=
  match o with
  | Some v => if truthy v then v else JStr []
  | None => JStr []
  end.

(** A detail document with something in most places. *)
Definition SAMPLE_INFO : json :=
  JObj [ (u8 "header", JObj [ (u8 "jobName", JStr (u8 "資料工程師"));
                               (u8 "custName", JStr (u8 "甲公司"));
                               (u8 "appearDate", JStr (u8 "2025/01/02")) ]);
         (u8 "jobDetail", JObj [ (u8 "addressRegion", JStr (u8 "台北市信義區"));
                                  (u8 "addressDetail", JStr (u8 "松高路1號"));
                                  (u8 "salary", JStr (u8 "月薪 50,000 元"));
                                  (u8 "needEmp", JStr (u8 "1~2人"));
                                  (u8 "jobDescription",
                                   JStr (u8 "  維護資料管線" ++ [13; 10]%N
                                           ++ u8 "撰寫報表 " ++ [13; 10]%N)) ]);
         (u8 "condition", JObj [ (u8 "workExp", JStr (u8 "2年以上"));
                                  (u8 "edu", JStr (u8 "大學"));
                                  (u8 "other", JStr (u8 " 需輪班" ++ [13; 10]%N
                                                       ++ u8 "可出差 ")) ]);
         (u8 "welfare", JObj [ (u8 "welfare", JStr (u8 "年終獎金")) ]);
         (u8 "jobName", JStr (u8 "工程師")) ].

(** The row [normalize] gives for it. *)
Definition SAMPLE_ROW : dict json :=
  returned (@normalize plain_builtins SAMPLE_INFO (u8 "abc")) [].

Section Orders.
Context {B : Builtins}.


End Orders.

Definition is_export (e : event) : bool :=
  match e with EvToExcel _ _ => true | _ => false end.

(** A listing with no reference. *)
Definition BROKEN : json := JObj [(u8 "title", JStr (u8 "no link"))].

(** A text with every line ending (carriage return and line feed, or a
    carriage return alone) written as one line feed. *)
Fixpoint to_lf (s : pystr) : pystr :=
  match s with
  | [] => []
  | c :: r =>
      if (c =? 13)%N then
        match r with
        | d :: r' => if (d =? 10)%N then 10%N :: to_lf r' else 10%N :: to_lf r
        | [] => [10%N]
        end
      else c :: to_lf r
  end.

Definition is_object (v : json) : Prop := exists d, v = JObj d.
(* ================================================================= *)
(** * Properties *)

(** ** Strings, dictionaries, results *)

Lemma pystr_eqb_eq (a b : pystr) : pystr_eqb a b = true <-> a = b.
Proof.
  revert b; induction a as [|x a IH]; intros [|y b]; simpl; split;
    try discriminate; try reflexivity.
  - intros H. apply andb_true_iff in H as [Hx Hr].
    apply N.eqb_eq in Hx. apply IH in Hr. now subst.
  - intros H. injection H as -> ->.
    apply andb_true_iff. split; [apply N.eqb_refl | now apply IH].
Qed.

Lemma pystr_eqb_refl (a : pystr) : pystr_eqb a a = true.
Proof. now apply pystr_eqb_eq. Qed.

Lemma pystr_eqb_neq (a b : pystr) : pystr_eqb a b = false <-> a <> b.
Proof.
  split.
  - intros H E. apply pystr_eqb_eq in E. congruence.
  - intros H. destruct (pystr_eqb a b) eqn:E; [|reflexivity].
    apply pystr_eqb_eq in E. contradiction.
Qed.

Lemma dict_get_In {V} (d : dict V) (k : pystr) (v : V) :
  dict_get d k = Some v -> In (k, v) d.
Proof.
  induction d as [|[k' v'] d IH]; simpl; [discriminate|].
  destruct (pystr_eqb k' k) eqn:E.
  - intros H. injection H as ->. apply pystr_eqb_eq in E. subst. now left.
  - intros H. right. now apply IH.
Qed.

Lemma lstrip_incl (s : pystr) (x : N) : In x (lstrip s) -> In x s.
Proof.
  induction s as [|c s IH]; simpl; [tauto|].
  destruct (isspace c); simpl; intuition.
Qed.

Lemma strip_incl (s : pystr) (x : N) : In x (strip s) -> In x s.
Proof.
  unfold strip, rstrip. intros H.
  apply in_rev, lstrip_incl, in_rev in H. now apply lstrip_incl.
Qed.

Lemma contains_strip (c : N) (s : pystr) :
  contains c s = false -> contains c (strip s) = false.
Proof.
  unfold contains. intros H.
  destruct (existsb (N.eqb c) (strip s)) eqn:E; [|reflexivity].
  apply existsb_exists in E as [x [Hin Hx]].
  apply strip_incl in Hin.
  assert (existsb (N.eqb c) s = true) by (apply existsb_exists; eauto).
  congruence.
Qed.

Lemma bind_Ok {A C} (c : result A) (k : A -> result C) (r : C) :
  bind c k = Ok r -> exists a, c = Ok a /\ k a = Ok r.
Proof. destruct c; simpl; [eauto | discriminate]. Qed.

Lemma config_lines_app (st : config_state) (l1 l2 : list pystr) :
  config_lines st (l1 ++ l2) = (st' <- config_lines st l1 ;; config_lines st' l2).
Proof.
  revert st; induction l1 as [|x l1 IH]; intros st; simpl; [reflexivity|].
  destruct (config_line st x); simpl; [apply IH | reflexivity].
Qed.

(** ** The region table *)

Lemma area_codes_spec (areas : list pystr) :
  area_codes areas = (known_codes areas, List.map unknown_area_line (unknown_names areas)).
Proof.
  unfold known_codes, unknown_names.
  induction areas as [|a areas IH]; [reflexivity|].
  cbn [area_codes flat_map filter]. rewrite IH.
  destruct (dict_get AREA_CODES a); reflexivity.
Qed.

Lemma shared_codes_complete (a b c : pystr) :
  dict_get AREA_CODES a = Some c -> dict_get AREA_CODES b = Some c -> a <> b ->
  In (a, b) shared_codes.
Proof.
  intros Ha Hb Hab. apply dict_get_In in Ha, Hb.
  unfold shared_codes. apply in_flat_map. exists (a, c). split; [exact Ha|].
  apply in_flat_map. exists (b, c). split; [exact Hb|]. simpl.
  rewrite pystr_eqb_refl. apply pystr_eqb_neq in Hab. rewrite Hab. now left.
Qed.

(** C9, as the specification words it, fails on the table: the two pairs
    it names have different codes. *)
Lemma AREA_CODES_named_pairs_differ :
  dict_get AREA_CODES (u8 "雲林縣") = Some (u8 "6001012000") /\
  dict_get AREA_CODES (u8 "彰化縣") = Some (u8 "6001011000") /\
  dict_get AREA_CODES (u8 "嘉義市") = Some (u8 "6001010000") /\
  dict_get AREA_CODES (u8 "嘉義縣") = Some (u8 "6001011000") /\
  dict_get AREA_CODES (u8 "雲林縣") <> dict_get AREA_CODES (u8 "彰化縣") /\
  dict_get AREA_CODES (u8 "嘉義市") <> dict_get AREA_CODES (u8 "嘉義縣").
Proof. vm_compute. repeat split; discriminate. Qed.

(** C9, amended: the table has 22 names, and exactly one pair of distinct
    names has the same code: 彰化縣 and 嘉義縣, both 6001011000. *)
Theorem AREA_CODES_one_shared_code :
  List.length AREA_CODES = 22 /\
  dict_get AREA_CODES (u8 "彰化縣") = Some (u8 "6001011000") /\
  dict_get AREA_CODES (u8 "嘉義縣") = Some (u8 "6001011000") /\
  u8 "彰化縣" <> u8 "嘉義縣" /\
  forall a b c,
    dict_get AREA_CODES a = Some c -> dict_get AREA_CODES b = Some c -> a <> b ->
    (a = u8 "彰化縣" /\ b = u8 "嘉義縣") \/ (a = u8 "嘉義縣" /\ b = u8 "彰化縣").
Proof.
  split; [reflexivity|]. split; [reflexivity|]. split; [reflexivity|].
  split; [vm_compute; discriminate|].
  intros a b c Ha Hb Hab.
  pose proof (shared_codes_complete Ha Hb Hab) as H.
  assert (E : shared_codes = [(u8 "彰化縣", u8 "嘉義縣"); (u8 "嘉義縣", u8 "彰化縣")])
    by (vm_compute; reflexivity).
  rewrite E in H. simpl in H.
  destruct H as [H | [H | []]]; injection H as <- <-; [left | right]; split; reflexivity.
Qed.

(** ** The configuration reader *)

(** C10: a line that is not blank, is not a comment and has no ['=']
    leaves the parameters and the printed lines as they were, without an
    error; the file reads as if the line were not there. *)
Theorem config_line_without_equals (st : config_state) (line : pystr) :
  strip line <> [] ->
  startswith 35 (strip line) = false ->
  contains 61 line = false ->
  config_line st line = Ok st /\
  forall before after,
    config_lines st (before ++ line :: after) = config_lines st (before ++ after).
Proof.
  intros Hblank Hcomment Heq.
  assert (Hline : forall st', config_line st' line = Ok st').
  { intros st'. unfold config_line.
    destruct (strip line) as [|c r] eqn:E; [contradiction|].
    rewrite Hcomment. simpl orb. cbv iota.
    rewrite <- E, (contains_strip _ _ Heq). reflexivity. }
  split; [apply Hline|].
  intros before after. rewrite !config_lines_app.
  destruct (config_lines st before) as [st'|e]; simpl; [|reflexivity].
  now rewrite Hline.
Qed.

Lemma config_line_without_equals_witness :
  let st := ConfigState [(u8 "keyword", u8 "python")] [] in
  config_line st (u8 "  nokey  ") = Ok st /\
  forall before after,
    config_lines st (before ++ u8 "  nokey  " :: after) = config_lines st (before ++ after).
Proof.
  apply (@config_line_without_equals
           (ConfigState [(u8 "keyword", u8 "python")] []) (u8 "  nokey  "));
    vm_compute; [discriminate | reflexivity | reflexivity].
Defined.

(** A line that reads [area=...] once stripped, so that the key cut at
    the first ['='] is exactly [area]: the stored value is the codes of
    the known names in the order of the names, joined with commas, and
    each unknown name only prints a line. *)
Lemma config_line_area (st : config_state) (line value : pystr) :
  strip line = u8 "area=" ++ value ->
  config_line st line =
    let names := List.map strip (split 44 (strip value)) in
    Ok {| params := dict_set (params st) (u8 "area") (join (u8 ",") (known_codes names));
          printed := printed st ++ List.map unknown_area_line (unknown_names names) |}.
Proof.
  intros Hs. unfold config_line. rewrite Hs.
  change (u8 "area=" ++ value) with (97 :: 114 :: 101 :: 97 :: 61 :: value)%N.
  cbn [startswith contains existsb orb negb N.eqb Pos.eqb split1].
  change (pystr_eqb [97; 114; 101; 97]%N (u8 "area")) with true. cbv iota.
  rewrite area_codes_spec. reflexivity.
Qed.

(** The codes keep the order of the names. *)
Lemma known_codes_app (l1 l2 : list pystr) :
  known_codes (l1 ++ l2) = known_codes l1 ++ known_codes l2.
Proof. apply flat_map_app. Qed.

(** Scenario A of the specification. *)
Example read_config_scenario_A :
  read_config (u8 "config.txt") (Some (u8 "area=台北市,新北市")) =
    Ok (ConfigState [(u8 "area", u8 "6001001000,6001002000")] []).
Proof. vm_compute. reflexivity. Qed.

(** C5 on a line with a blank before ['=']: the key is compared with
    [area] before it is trimmed and stored after, so the names are stored
    under [area] as they are, not as codes. *)
Theorem read_config_area_key_not_trimmed :
  read_config (u8 "config.txt") (Some (u8 "area =台北市,新北市")) =
    Ok (ConfigState [(u8 "area", u8 "台北市,新北市")] []) /\
  strip (u8 "area ") = u8 "area" /\
  u8 "台北市,新北市" <> u8 "6001001000,6001002000".
Proof. vm_compute. repeat split. discriminate. Qed.

(** ** The detail fetcher *)

(** C8 as stated fails on a success response whose well-formed JSON body
    is not an object: it has no [data] field, and what is raised is an
    [AttributeError], not the [ValueError] of a withdrawn listing. *)
Lemma detail_document_array_body :
  let res := Response (u8 "https://www.104.com.tw/job/ajax/content/abc") 200 (u8 "OK")
                      (Ok (JList [])) in
  raise_for_status res = Ok tt /\
  field (JList []) (u8 "data") = None /\
  detail_document (Ok res) =
    Raise (Exn AttributeError (u8 "'list' object has no attribute 'get'")) /\
  AttributeError <> ValueError.
Proof. vm_compute. repeat split. discriminate. Qed.

(** C8, amended: for a response with a success status whose JSON body is
    an object, the step from the request to [info] raises exactly when
    [data] is absent or empty; what it raises then is the [ValueError]
    with the withdrawn-listing text, a class other than [HTTPError];
    otherwise it returns the value of [data].  A failure status raises
    an [HTTPError]. *)
Theorem detail_document_withdrawn (res : response) (body : dict json) :
  (status_code res < 400 \/ 600 <= status_code res)%Z ->
  resp_json res = Ok (JObj body) ->
  ((exists e, detail_document (Ok res) = Raise e) <->
     populated (dict_get body (u8 "data")) = false) /\
  (populated (dict_get body (u8 "data")) = false ->
     detail_document (Ok res) = Raise (Exn ValueError WITHDRAWN)) /\
  (forall v, dict_get body (u8 "data") = Some v -> truthy v = true ->
     detail_document (Ok res) = Ok v) /\
  ValueError <> HTTPError /\
  (forall res', (400 <= status_code res' < 600)%Z ->
     exists text, detail_document (Ok res') = Raise (Exn HTTPError text)).
Proof.
  intros Hstatus Hbody.
  assert (Hs : raise_for_status res = Ok tt).
  { unfold raise_for_status.
    destruct ((400 <=? status_code res)%Z && (status_code res <? 500)%Z) eqn:E1;
      [apply andb_true_iff in E1 as [E1 E1']; lia|].
    destruct ((500 <=? status_code res)%Z && (status_code res <? 600)%Z) eqn:E2;
      [apply andb_true_iff in E2 as [E2 E2']; lia|].
    reflexivity. }
  assert (Hd : detail_document (Ok res) =
               match dict_get body (u8 "data") with
               | Some v => if truthy v then Ok v else Raise (Exn ValueError WITHDRAWN)
               | None => Raise (Exn ValueError WITHDRAWN)
               end).
  { unfold detail_document. cbn [bind]. rewrite Hs, Hbody. cbn [bind py_get].
    destruct (dict_get body (u8 "data")); reflexivity. }
  repeat split.
  - intros [e He]. rewrite Hd in He. unfold populated.
    destruct (dict_get body (u8 "data")) as [v|]; [|reflexivity].
    destruct (truthy v); [discriminate | reflexivity].
  - intros Hp. rewrite Hd. unfold populated in Hp.
    destruct (dict_get body (u8 "data")) as [v|]; [rewrite Hp|]; eauto.
  - intros Hp. rewrite Hd. unfold populated in Hp.
    destruct (dict_get body (u8 "data")) as [v|]; [rewrite Hp|]; reflexivity.
  - intros v Hv Ht. rewrite Hd, Hv, Ht. reflexivity.
  - discriminate.
  - intros res' [Hlo Hhi]. unfold detail_document, raise_for_status. cbn [bind].
    destruct ((400 <=? status_code res')%Z && (status_code res' <? 500)%Z) eqn:E1;
      [eexists; reflexivity|].
    destruct ((500 <=? status_code res')%Z && (status_code res' <? 600)%Z) eqn:E2;
      [eexists; reflexivity|].
    apply andb_false_iff in E1, E2. lia.
Qed.

Lemma detail_document_withdrawn_witness :
  let res := Response (u8 "https://www.104.com.tw/job/ajax/content/abc") 200 (u8 "OK")
                      (Ok (JObj [(u8 "data", JObj [])])) in
  detail_document (Ok res) = Raise (Exn ValueError WITHDRAWN).
Proof.
  refine (proj1 (proj2 (@detail_document_withdrawn
            (Response (u8 "https://www.104.com.tw/job/ajax/content/abc") 200 (u8 "OK")
                      (Ok (JObj [(u8 "data", JObj [])])))
            [(u8 "data", JObj [])] _ _)) _).
  - left. cbn. lia.
  - reflexivity.
  - reflexivity.
Defined.

(** ** The flattening of a detail document *)

Section FlattenProperties.
Context {B : Builtins}.

Lemma py_get_Ok (v : json) (k : pystr) (dflt x : json) :
  py_get v k dflt = Ok x ->
  x = match field v k with Some y => y | None => dflt end.
Proof. destruct v; simpl; try discriminate. now intros [= <-]. Qed.

Lemma py_get_section (info : json) (name : pystr) (s : json) :
  py_get info name (JObj []) = Ok s -> s = section_of info name.
Proof. apply py_get_Ok. Qed.

(** One link of an [or] chain over [.get] calls. *)
Lemma chain_step (v : json) (k : pystr) (rest : result json) (r : json)
    (sources : list (option json)) (placeholder : json) :
  (a <- py_get v k JNull ;; py_or a rest) = Ok r ->
  (rest = Ok r -> r = first_populated sources placeholder) ->
  r = first_populated (field v k :: sources) placeholder.
Proof.
  destruct v; simpl; try discriminate. unfold py_or.
  destruct (dict_get d k) as [y|]; simpl.
  - destruct (truthy y); [now intros [= <-] | auto].
  - auto.
Qed.


(** What a returned row is made of. *)
Lemma normalize_inv (info : json) (job_id : pystr) (row : dict json) :
  normalize info job_id = Ok row ->
  let header := section_of info (u8 "header") in
  let detail := section_of info (u8 "jobDetail") in
  let condition := section_of info (u8 "condition") in
  let cust := section_of info (u8 "custInfo") in
  exists company_name job_name place work_exp edu language specialty skills
         salary benefits need_emp description other_condition appear_date,
    row = [ (u8 "公司名稱", company_name);
            (u8 "職缺名稱", job_name);
            (u8 "地點", place);
            (u8 "工作經歷", work_exp);
            (u8 "學歷", edu);
            (u8 "語言能力", language);
            (u8 "擅長工具", specialty);
            (u8 "工作技能", skills);
            (u8 "薪資", salary);
            (u8 "福利", benefits);
            (u8 "職缺需求人數", need_emp);
            (u8 "工作內容", description);
            (u8 "其他條件", other_condition);
            (u8 "職缺更新日期", appear_date);
            (u8 "職缺連結", JStr (job_url job_id)) ] /\
    company_name_of info cust header = Ok company_name /\
    job_name_of info detail header = Ok job_name /\
    language_of condition = Ok language /\
    described_of condition detail (u8 "specialty") = Ok specialty /\
    described_of condition detail (u8 "skill") = Ok skills /\
    other_condition_of info condition detail = Ok other_condition.
Proof.
  unfold normalize. intros H.
  apply bind_Ok in H as (header & Hh & H). apply py_get_section in Hh.
  apply bind_Ok in H as (detail & Hd & H). apply py_get_section in Hd.
  apply bind_Ok in H as (condition & Hc & H). apply py_get_section in Hc.
  apply bind_Ok in H as (cust & Hcu & H). apply py_get_section in Hcu.
  apply bind_Ok in H as (welfare & _ & H).
  subst header detail condition cust.
  apply bind_Ok in H as (company_name & Hcompany & H).
  apply bind_Ok in H as (job_name & Hjob & H).
  apply bind_Ok in H as (language & Hlang & H).
  apply bind_Ok in H as (specialty & Hspec & H).
  apply bind_Ok in H as (skills & Hskill & H).
  apply bind_Ok in H as (other_condition & Hother & H).
  apply bind_Ok in H as (region & _ & H).
  apply bind_Ok in H as (address & _ & H).
  apply bind_Ok in H as (place & _ & H).
  apply bind_Ok in H as (work_exp & _ & H).
  apply bind_Ok in H as (edu & _ & H).
  apply bind_Ok in H as (salary & _ & H).
  apply bind_Ok in H as (benefits & _ & H).
  apply bind_Ok in H as (need_emp & _ & H).
  apply bind_Ok in H as (description & _ & H).
  apply bind_Ok in H as (appear_date & _ & H).
  injection H as <-.
  exists company_name, job_name, place, work_exp, edu, language, specialty, skills,
         salary, benefits, need_emp, description, other_condition, appear_date.
  repeat split; assumption.
Qed.


(** *** Documents whose sections are present and empty *)

Lemma py_get_field (v : json) (k : pystr) (dflt x : json) :
  field v k = Some x -> py_get v k dflt = Ok x.
Proof. destruct v; simpl; try discriminate. now intros ->. Qed.

Lemma company_name_of_empty (d : dict json) :
  string_or_empty (dict_get d (u8 "custName")) ->
  exists s, company_name_of (JObj d) (JObj []) (JObj []) = Ok (JStr s).
Proof.
  unfold company_name_of, string_or_empty, py_or. cbn [py_get bind dict_get].
  destruct (dict_get d (u8 "custName")) as [[| | | |s| |]|]; intros H;
    try rewrite H; cbn [truthy]; try (eexists; reflexivity).
  destruct s; eexists; reflexivity.
Qed.

Lemma job_name_of_empty (d : dict json) :
  string_or_empty (dict_get d (u8 "jobName")) ->
  exists s, job_name_of (JObj d) (JObj []) (JObj []) = Ok (JStr s).
Proof.
  unfold job_name_of, string_or_empty, py_or. cbn [py_get bind dict_get truthy].
  destruct (dict_get d (u8 "jobName")) as [[| | | |s| |]|]; intros H;
    try rewrite H; cbn [truthy]; try (eexists; reflexivity).
  destruct s; eexists; reflexivity.
Qed.

Lemma other_condition_of_empty (d : dict json) :
  mapping_or_absent (dict_get d (u8 "requirement")) ->
  exists s, other_condition_of (JObj d) (JObj []) (JObj []) = Ok (JStr s).
Proof.
  unfold other_condition_of, mapping_or_absent, py_or.
  cbn [py_get bind dict_get truthy].
  destruct (dict_get d (u8 "requirement")) as [[| | | | | |r]|]; intros H;
    try contradiction; cbn [py_get bind dict_get truthy].
  - destruct (dict_get r (u8 "other")) as [c|]; [destruct (truthy c)|];
      eexists; reflexivity.
  - eexists; reflexivity.
Qed.

(** With the same sections and a top-level [custName] that is a number,
    a row is returned whose company name is that number, not a string. *)
Example normalize_custName_number :
  exists row,
    normalize (JObj (EMPTY_SECTIONS ++ [(u8 "custName", JInt 7)])) (u8 "abc") = Ok row /\
    dict_get row (u8 "公司名稱") = Some (JInt 7).
Proof. eexists. split; reflexivity. Qed.

(** C1, amended: when the five sections are present and empty, the
    top-level [custName] and [jobName] are absent, empty or strings and
    the top-level [requirement] is absent or an object, a row is
    returned, its keys are the fifteen columns in order, and every value
    in it is a string. *)
Theorem normalize_empty_sections (info : json) (job_id : pystr) :
  (forall name, In name SECTIONS -> field info name = Some (JObj [])) ->
  string_or_empty (field info (u8 "custName")) ->
  string_or_empty (field info (u8 "jobName")) ->
  mapping_or_absent (field info (u8 "requirement")) ->
  exists row,
    normalize info job_id = Ok row /\
    List.map fst row = COLUMNS /\
    List.length row = 15 /\
    Forall (fun kv => exists s, snd kv = JStr s) row.
Proof.
  intros Hsec Hcust Hjob Hreq.
  assert (Hh := Hsec (u8 "header")). assert (Hd := Hsec (u8 "jobDetail")).
  assert (Hc := Hsec (u8 "condition")). assert (Hcu := Hsec (u8 "custInfo")).
  assert (Hw := Hsec (u8 "welfare")).
  unfold SECTIONS in *.
  specialize (Hh ltac:(simpl; tauto)). specialize (Hd ltac:(simpl; tauto)).
  specialize (Hc ltac:(simpl; tauto)). specialize (Hcu ltac:(simpl; tauto)).
  specialize (Hw ltac:(simpl; tauto)). clear Hsec.
  destruct info as [| | | | | |d]; try discriminate. cbn [field] in *.
  destruct (company_name_of_empty d Hcust) as [company Ecompany].
  destruct (job_name_of_empty d Hjob) as [job Ejob].
  destruct (other_condition_of_empty d Hreq) as [other Eother].
  unfold normalize.
  rewrite (@py_get_field (JObj d) (u8 "header") (JObj []) _ Hh); cbn [bind].
  rewrite (@py_get_field (JObj d) (u8 "jobDetail") (JObj []) _ Hd); cbn [bind].
  rewrite (@py_get_field (JObj d) (u8 "condition") (JObj []) _ Hc); cbn [bind].
  rewrite (@py_get_field (JObj d) (u8 "custInfo") (JObj []) _ Hcu); cbn [bind].
  rewrite (@py_get_field (JObj d) (u8 "welfare") (JObj []) _ Hw); cbn [bind].
  rewrite Ecompany, Ejob, Eother.
  eexists. split; [reflexivity|]. split; [reflexivity|]. split; [reflexivity|].
  repeat (constructor; [eexists; reflexivity|]). constructor.
Qed.

End FlattenProperties.

(** C1 as stated fails on a document whose five sections are present and
    empty and whose top-level [requirement] is [null]: the lookup of
    [other] in it raises. *)
Lemma normalize_requirement_null :
  let info := JObj (EMPTY_SECTIONS ++ [(u8 "requirement", JNull)]) in
  (forall name, In name SECTIONS -> field info name = Some (JObj [])) /\
  (forall (B : Builtins) (job_id : pystr),
     normalize info job_id =
       Raise (Exn AttributeError (u8 "'NoneType' object has no attribute 'get'"))).
Proof.
  split.
  - intros name Hin. simpl in Hin.
    repeat (destruct Hin as [<- | Hin]; [reflexivity|]). contradiction.
  - intros B job_id. reflexivity.
Qed.

Lemma normalize_empty_sections_witness :
  exists row,
    @normalize plain_builtins (JObj EMPTY_SECTIONS) (u8 "abc") = Ok row /\
    List.map fst row = COLUMNS /\
    List.length row = 15 /\
    Forall (fun kv => exists s, snd kv = JStr s) row.
Proof.
  apply (@normalize_empty_sections plain_builtins (JObj EMPTY_SECTIONS) (u8 "abc")).
  - intros name Hin. simpl in Hin.
    repeat (destruct Hin as [<- | Hin]; [reflexivity|]). contradiction.
  - exact I.
  - exact I.
  - exact I.
Defined.

(** ** Languages, tools and skills *)

Section ListFields.
Context {B : Builtins}.

Lemma py_get_entry (e : json) (k : pystr) (x : json) :
  py_get e k (JStr []) = Ok x -> x = entry_field e k.
Proof. apply py_get_Ok. Qed.

Lemma py_get_truthy (e : json) (k : pystr) (x : json) :
  py_get e k JNull = Ok x -> truthy x = truthy (entry_field e k).
Proof.
  intros H. apply py_get_Ok in H. subst x. unfold entry_field.
  destruct (field e k); reflexivity.
Qed.

Lemma lang_list_of_spec (items lang_list : list json) :
  lang_list_of items = Ok lang_list ->
  lang_list = List.map appended (named_languages items).
Proof.
  revert lang_list. unfold named_languages.
  induction items as [|e items IH]; intros lang_list H.
  - now injection H as <-.
  - cbn [lang_list_of] in H.
    apply bind_Ok in H as (lang_item & Hl & H). apply py_get_entry in Hl.
    apply bind_Ok in H as (ability & Ha & H). apply py_get_entry in Ha.
    apply bind_Ok in H as (tail & Ht & H). apply IH in Ht.
    injection H as <-. subst lang_item ability tail.
    cbn [filter]. unfold appended at 1.
    destruct (truthy (entry_field e (u8 "language"))); reflexivity.
Qed.

Lemma py_join_from_appended (i : nat) (kept : list json) (ss : list pystr) :
  py_join_from i (List.map appended kept) = Ok ss ->
  ss = List.map format_entry kept.
Proof.
  revert i ss. induction kept as [|e kept IH]; intros i ss H.
  - now injection H as <-.
  - cbn [List.map py_join_from] in H.
    destruct (appended e) as [| | | |s| |] eqn:E; try discriminate.
    apply bind_Ok in H as (tail & Ht & H). apply IH in Ht.
    injection H as <-. subst tail. cbn [List.map]. f_equal.
    unfold appended in E. unfold format_entry.
    destruct (truthy (entry_field e (u8 "ability"))).
    + now injection E as <-.
    + now rewrite E.
Qed.

Lemma language_of_list (condition : json) (entries : list json) (r : json) :
  language_of condition = Ok r ->
  field condition (u8 "language") = Some (JList entries) ->
  r = JStr (language_text entries).
Proof.
  unfold language_of. intros H Hf.
  apply bind_Ok in H as (l & Hl & H). apply py_get_Ok in Hl. rewrite Hf in Hl. subst l.
  cbn [py_iter bind] in H.
  apply bind_Ok in H as (lang_list & Hll & H). apply lang_list_of_spec in Hll.
  unfold language_text. subst lang_list.
  destruct (named_languages entries) as [|e kept].
  - now injection H as <-.
  - cbn [List.map] in H. apply bind_Ok in H as (s & Hs & H). injection H as <-.
    unfold py_join in Hs. apply bind_Ok in Hs as (ss & Hss & Hs). injection Hs as <-.
    change (appended e :: List.map appended kept) with (List.map appended (e :: kept)) in Hss.
    apply py_join_from_appended in Hss. now subst ss.
Qed.

Lemma language_of_absent (condition r : json) :
  language_of condition = Ok r ->
  field condition (u8 "language") = None ->
  r = JStr UNSPECIFIED.
Proof.
  unfold language_of. intros H Hf.
  apply bind_Ok in H as (l & Hl & H). apply py_get_Ok in Hl. rewrite Hf in Hl. subst l.
  cbn in H. now injection H as <-.
Qed.

(** C3, amended: in a returned row the language field is made from the
    list of language entries of the eligibility section; the entries
    without a language are passed over, each other entry gives
    "language:ability" when it has an ability and "language" when it has
    none, the texts are joined with ", ", and 未指定 stands when no entry
    names a language, or when the section has no such list. *)
Theorem language_field (info : json) (job_id : pystr) (row : dict json) :
  normalize info job_id = Ok row ->
  (forall entries,
     field (section_of info (u8 "condition")) (u8 "language") = Some (JList entries) ->
     dict_get row (u8 "語言能力") = Some (JStr (language_text entries))) /\
  (field (section_of info (u8 "condition")) (u8 "language") = Some (JList []) ->
     dict_get row (u8 "語言能力") = Some (JStr (u8 "未指定"))) /\
  (field (section_of info (u8 "condition")) (u8 "language") = None ->
     dict_get row (u8 "語言能力") = Some (JStr (u8 "未指定"))).
Proof.
  intros H. apply normalize_inv in H.
  destruct H as (company & job & place & we & edu & lang & spec & skills & sal & ben
                 & ne & descr & other & ad & -> & _ & _ & Hlang & _).
  change (dict_get _ (u8 "語言能力")) with (Some lang).
  split; [|split].
  - intros entries Hf. now rewrite (language_of_list _ Hlang Hf).
  - intros Hf. now rewrite (language_of_list _ Hlang Hf).
  - intros Hf. now rewrite (language_of_absent _ Hlang Hf).
Qed.

Lemma desc_list_of_spec (l ds : list json) :
  desc_list_of l = Ok ds -> ds = descriptions l.
Proof.
  revert ds. unfold descriptions.
  induction l as [|e l IH]; intros ds H.
  - now injection H as <-.
  - cbn [desc_list_of] in H.
    apply bind_Ok in H as (d & Hd & H). apply py_get_truthy in Hd.
    cbn [List.map filter]. rewrite <- Hd.
    destruct (truthy d).
    + apply bind_Ok in H as (v & Hv & H). apply py_get_entry in Hv.
      apply bind_Ok in H as (tail & Ht & H). apply IH in Ht.
      injection H as <-. now subst.
    + now apply IH.
Qed.

Lemma py_join_from_texts (i : nat) (l : list json) (ss : list pystr) :
  py_join_from i l = Ok ss -> ss = List.map py_str l.
Proof.
  revert i ss. induction l as [|v l IH]; intros i ss H.
  - now injection H as <-.
  - cbn [py_join_from] in H. destruct v; try discriminate.
    apply bind_Ok in H as (tail & Ht & H). apply IH in Ht.
    injection H as <-. now subst.
Qed.

Lemma described_of_spec (condition detail : json) (key : pystr) (r : json) :
  described_of condition detail key = Ok r ->
  r = described_text (field condition key) (field detail key).
Proof.
  unfold described_of, described_text. intros H.
  apply bind_Ok in H as (c & Hc & H). apply py_get_Ok in Hc.
  apply bind_Ok in H as (v & Hv & H). injection H as <-.
  assert (Hfall : forall d, py_get detail key JNull = Ok d ->
            (if truthy (if truthy d then d else JStr []) then (if truthy d then d else JStr [])
             else JStr UNSPECIFIED) =
            (if truthy (match field detail key with Some x => x | None => JStr [] end)
             then match field detail key with Some x => x | None => JStr [] end
             else JStr UNSPECIFIED)).
  { intros d Hd. apply py_get_Ok in Hd. subst d.
    destruct (field detail key) as [x|]; [|reflexivity].
    destruct (truthy x) eqn:E; [now rewrite E | reflexivity]. }
  destruct (field condition key) as [[| | | |s|l|o]|]; subst c;
    try (apply bind_Ok in Hv as (d & Hd & Hv); injection Hv as <-; now apply Hfall).
  - now injection Hv as <-.
  - apply bind_Ok in Hv as (ds & Hds & Hv). apply desc_list_of_spec in Hds.
    apply bind_Ok in Hv as (s & Hs & Hv). injection Hv as <-.
    unfold py_join in Hs. apply bind_Ok in Hs as (ss & Hss & Hs). injection Hs as <-.
    apply py_join_from_texts in Hss. now subst.
Qed.

(** C4, amended: in a returned row the tools field and the skills field
    come from the same dispatch on the field of the eligibility section
    ([specialty], [skill]): a list gives the descriptions of its entries
    that are not empty, joined with ", "; a string is taken as it is;
    anything else gives the field of the job-detail section; and 未指定
    stands for an empty result. *)
Theorem described_fields (info : json) (job_id : pystr) (row : dict json) :
  normalize info job_id = Ok row ->
  let condition := section_of info (u8 "condition") in
  let detail := section_of info (u8 "jobDetail") in
  dict_get row (u8 "擅長工具") =
    Some (described_text (field condition (u8 "specialty")) (field detail (u8 "specialty"))) /\
  dict_get row (u8 "工作技能") =
    Some (described_text (field condition (u8 "skill")) (field detail (u8 "skill"))).
Proof.
  intros H condition detail. apply normalize_inv in H.
  destruct H as (company & job & place & we & edu & lang & spec & skills & sal & ben
                 & ne & descr & other & ad & -> & _ & _ & _ & Hspec & Hskill & _).
  apply described_of_spec in Hspec, Hskill. fold condition detail in Hspec, Hskill.
  change (dict_get _ (u8 "擅長工具")) with (Some spec).
  change (dict_get _ (u8 "工作技能")) with (Some skills).
  now subst.
Qed.

End ListFields.


(** Scenario C of the specification. *)
Example company_name_scenario_C :
  dict_get (returned (@normalize plain_builtins (JObj EMPTY_SECTIONS) (u8 "abc")) [])
           (u8 "公司名稱") = Some (JStr (u8 "（未知公司）")).
Proof. vm_compute. reflexivity. Qed.

(** C3 as stated fails on a list whose one entry gives an ability and no
    language: the list is not empty and the entry would read ":Fluent",
    but the loop passes over it and the field is the placeholder. *)
Lemma language_ability_only :
  (forall B : Builtins, exists row,
     normalize (with_condition (u8 "language") (JList ABILITY_ONLY)) (u8 "abc") = Ok row /\
     dict_get row (u8 "語言能力") = Some (JStr (u8 "未指定"))) /\
  (forall B : Builtins, language_as_stated ABILITY_ONLY = u8 ":Fluent") /\
  u8 ":Fluent" <> u8 "未指定".
Proof.
  split; [|split].
  - intros B. eexists. split; reflexivity.
  - intros B. reflexivity.
  - vm_compute. discriminate.
Qed.

(** Scenario B of the specification, from the theorem. *)
Lemma language_field_witness :
  dict_get (returned (@normalize plain_builtins
                        (with_condition (u8 "language") (JList SCENARIO_B)) (u8 "abc")) [])
           (u8 "語言能力") = Some (JStr (u8 "English:Fluent, Japanese")).
Proof.
  change (u8 "English:Fluent, Japanese") with (@language_text plain_builtins SCENARIO_B).
  refine (proj1 (@language_field plain_builtins
            (with_condition (u8 "language") (JList SCENARIO_B)) (u8 "abc") _ _)
            SCENARIO_B _); vm_compute; reflexivity.
Defined.

(** C4 as stated fails on a list with an empty description between two
    others: the join of every description is "Excel, , Word", the field
    is "Excel, Word". *)
Lemma described_gapped :
  (forall B : Builtins, exists row,
     normalize (with_condition (u8 "specialty") (JList GAPPED)) (u8 "abc") = Ok row /\
     dict_get row (u8 "擅長工具") = Some (JStr (u8 "Excel, Word"))) /\
  (forall B : Builtins,
     described_as_stated (Some (JList GAPPED)) None = JStr (u8 "Excel, , Word")) /\
  u8 "Excel, Word" <> u8 "Excel, , Word".
Proof.
  split; [|split].
  - intros B. eexists. split; reflexivity.
  - intros B. reflexivity.
  - vm_compute. discriminate.
Qed.

Lemma described_fields_witness :
  let info := JObj [(u8 "condition", JObj [(u8 "specialty", JList GAPPED);
                                           (u8 "skill", JStr (u8 "Python"))]);
                    (u8 "jobDetail", JObj [(u8 "skill", JStr (u8 "unused"))])] in
  let row := returned (@normalize plain_builtins info (u8 "abc")) [] in
  dict_get row (u8 "擅長工具") = Some (JStr (u8 "Excel, Word")) /\
  dict_get row (u8 "工作技能") = Some (JStr (u8 "Python")).
Proof.
  refine (@described_fields plain_builtins
            (JObj [(u8 "condition", JObj [(u8 "specialty", JList GAPPED);
                                           (u8 "skill", JStr (u8 "Python"))]);
                   (u8 "jobDetail", JObj [(u8 "skill", JStr (u8 "unused"))])])
            (u8 "abc") _ _).
  vm_compute. reflexivity.
Defined.

(** ** The main loop *)

Section LoopProperties.
Context {B : Builtins}.
Variable web : request -> http_outcome.


Lemma crawl_unlinked (job : json) (rest : list json) (acc : list (dict json)) (e : exn) :
  job_link job = Raise e -> crawl web (job :: rest) acc = ([], Raise e).
Proof. intros H. cbn [crawl]. now rewrite H. Qed.

Lemma crawl_fetched (job job_id : json) (rest : list json) (acc : list (dict json))
    (row : dict json) :
  job_link job = Ok job_id ->
  snd (fetch_job_detail web job_id) = Ok row ->
  crawl web (job :: rest) acc =
    (fst (fetch_job_detail web job_id)
       ++ EvPrint (fetched_line row) :: EvSleep 1 :: fst (crawl web rest (acc ++ [row])),
     snd (crawl web rest (acc ++ [row]))).
Proof.
  intros Hl Hf. cbn [crawl]. rewrite Hl.
  destruct (fetch_job_detail web job_id) as [sent r]. cbn [fst snd] in *. subst r.
  destruct (crawl web rest (acc ++ [row])). reflexivity.
Qed.

Lemma crawl_skipped (job job_id : json) (rest : list json) (acc : list (dict json))
    (e : exn) :
  job_link job = Ok job_id ->
  snd (fetch_job_detail web job_id) = Raise e ->
  crawl web (job :: rest) acc =
    (fst (fetch_job_detail web job_id)
       ++ EvPrint (skipped_line job_id e) :: fst (crawl web rest acc),
     snd (crawl web rest acc)).
Proof.
  intros Hl Hf. cbn [crawl]. rewrite Hl.
  destruct (fetch_job_detail web job_id) as [sent r]. cbn [fst snd] in *. subst r.
  destruct (crawl web rest acc). reflexivity.
Qed.









(** *** The delay *)







End LoopProperties.



(** ** The whole script *)

(** Scenario D of the specification: the search gives no listing, and
    nothing is written. *)
Example main_scenario_D :
  @main plain_builtins (Some (u8 "area=台北市,新北市")) (BOARD []) =
    ([ EvGet (job_list_request [(u8 "area", u8 "6001001000,6001002000")]);
       EvPrint (u8 "❌ 沒有成功抓取到任何職缺。") ], None).
Proof. vm_compute. reflexivity. Qed.

(** A run over three listings, the second withdrawn: two rows are
    written. *)
Example main_three_listings :
  exists r1 r2 events,
    @main plain_builtins (Some (u8 "keyword=python")) (BOARD [OPEN1; GONE; OPEN2]) =
      (events ++ [EvToExcel (u8 "104_jobs.xlsx") [r1; r2]; EvPrint DONE_LINE], None).
Proof.
  eexists. eexists. eexists (_ :: _ :: _ :: _ :: _ :: _ :: _ :: _ :: [_]).
  vm_compute. reflexivity.
Qed.

(** Without [config.txt] the script ends before any request. *)
Example main_without_config :
  forall (B : Builtins) web,
    exists text, main None web = ([], Some (Exn FileNotFoundError text)).
Proof. intros B web. eexists. reflexivity. Qed.

(* ================================================================= *)
(** * Further properties of the script *)

Unset Implicit Arguments.

(** ** Stripping and splitting *)

Lemma lstrip_first (s : pystr) (c : N) (r : pystr) :
  lstrip s = c :: r -> isspace c = false.
Proof.
  induction s as [|x s IH]; cbn [lstrip]; [discriminate|].
  destruct (isspace x) eqn:E; [exact IH|]. now intros [= <- _].
Qed.

Lemma lstrip_fixed (c : N) (r : pystr) : isspace c = false -> lstrip (c :: r) = c :: r.
Proof. intros H. cbn [lstrip]. now rewrite H. Qed.

Lemma lstrip_snoc (s : pystr) (c : N) :
  isspace c = false -> lstrip (s ++ [c]) = lstrip s ++ [c].
Proof.
  intros H. induction s as [|x s IH]; cbn [lstrip app].
  - now rewrite H.
  - destruct (isspace x); [exact IH | reflexivity].
Qed.

Lemma lstrip_suffix (s : pystr) : exists p, s = p ++ lstrip s.
Proof.
  induction s as [|x s [p IH]]; [now exists []|]. cbn [lstrip].
  destruct (isspace x).
  - exists (x :: p). cbn. now rewrite <- IH.
  - now exists [].
Qed.

Lemma rstrip_prefix (s : pystr) : exists q, s = rstrip s ++ q.
Proof.
  unfold rstrip. destruct (lstrip_suffix (rev s)) as [p Hp].
  exists (rev p). rewrite <- rev_app_distr, <- Hp. now rewrite rev_involutive.
Qed.

Lemma rstrip_last (s r : pystr) (c : N) : rstrip s = r ++ [c] -> isspace c = false.
Proof.
  unfold rstrip. intros H. apply (f_equal (@rev N)) in H.
  rewrite rev_involutive, rev_app_distr in H. cbn in H. now apply lstrip_first in H.
Qed.

Lemma rstrip_keeps_first (c : N) (r : pystr) :
  isspace c = false -> exists r', rstrip (c :: r) = c :: r'.
Proof.
  intros H. unfold rstrip. cbn [rev]. rewrite (lstrip_snoc _ _ H), rev_app_distr.
  cbn. eauto.
Qed.

Lemma strip_trimmed (s : pystr) : trimmed (strip s).
Proof.
  unfold strip. split.
  - intros c r E. destruct (lstrip s) as [|x t] eqn:El.
    + discriminate.
    + pose proof (lstrip_first _ _ _ El) as Hx.
      destruct (rstrip_keeps_first _ t Hx) as [r' Hr]. rewrite Hr in E.
      now injection E as <- _.
  - intros r c E. exact (rstrip_last _ _ _ E).
Qed.

Lemma trimmed_strip (s : pystr) : trimmed s -> strip s = s.
Proof.
  intros [Hfirst Hlast]. unfold strip.
  assert (El : lstrip s = s).
  { destruct s as [|c r]; [reflexivity|]. apply lstrip_fixed. now apply (Hfirst c r). }
  rewrite El. unfold rstrip.
  assert (Er : lstrip (rev s) = rev s).
  { destruct (rev s) as [|c r] eqn:E; [reflexivity|]. apply lstrip_fixed.
    apply (Hlast (rev r) c). apply (f_equal (@rev N)) in E.
    now rewrite rev_involutive in E. }
  rewrite Er. apply rev_involutive.
Qed.

Lemma strip_idempotent (s : pystr) : strip (strip s) = strip s.
Proof. apply trimmed_strip, strip_trimmed. Qed.

Lemma no_space_trimmed (s : pystr) :
  (forall c, In c s -> isspace c = false) -> trimmed s.
Proof.
  intros H. split.
  - intros c r ->. apply H. now left.
  - intros r c ->. apply H, in_or_app. right. now left.
Qed.

Lemma split1_cut (sep : N) (key value : pystr) :
  contains sep key = false -> split1 sep (key ++ sep :: value) = [key; value].
Proof.
  unfold contains. induction key as [|c key IH]; cbn [app split1 existsb]; intros H.
  - now rewrite N.eqb_refl.
  - apply orb_false_iff in H as [Hc Hk]. rewrite N.eqb_sym in Hc. rewrite Hc.
    now rewrite (IH Hk).
Qed.

Lemma contains_cut (sep : N) (s : pystr) :
  contains sep s = true ->
  exists key value, s = key ++ sep :: value /\ contains sep key = false.
Proof.
  unfold contains. induction s as [|c s IH]; cbn [existsb]; [discriminate|].
  destruct (sep =? c)%N eqn:E.
  - intros _. apply N.eqb_eq in E. subst c. now exists [], s.
  - cbn [orb]. intros H. destruct (IH H) as (key & value & -> & Hk).
    exists (c :: key), value. split; [reflexivity|]. cbn [existsb]. now rewrite E.
Qed.

(** ** Dictionaries *)

Lemma dict_get_set_same {V} (d : dict V) (k : pystr) (v : V) :
  dict_get (dict_set d k v) k = Some v.
Proof.
  induction d as [|[k' v'] d IH]; cbn [dict_set dict_get].
  - now rewrite pystr_eqb_refl.
  - destruct (pystr_eqb k' k) eqn:E; cbn [dict_get]; now rewrite E.
Qed.

Lemma dict_get_set_other {V} (d : dict V) (k k' : pystr) (v : V) :
  k' <> k -> dict_get (dict_set d k v) k' = dict_get d k'.
Proof.
  intros Hne. induction d as [|[k0 v0] d IH]; cbn [dict_set dict_get].
  - assert (E : pystr_eqb k k' = false) by (apply pystr_eqb_neq; congruence).
    now rewrite E.
  - destruct (pystr_eqb k0 k) eqn:E; cbn [dict_get].
    + apply pystr_eqb_eq in E. subst k0.
      assert (E : pystr_eqb k k' = false) by (apply pystr_eqb_neq; congruence).
      now rewrite E.
    + now rewrite IH.
Qed.

Lemma dict_set_In {V} (d : dict V) (k k' : pystr) (v v' : V) :
  In (k', v') (dict_set d k v) -> (k' = k /\ v' = v) \/ In (k', v') d.
Proof.
  induction d as [|[k0 v0] d IH]; cbn [dict_set].
  - intros [[= <- <-] | []]. now left.
  - destruct (pystr_eqb k0 k) eqn:E.
    + apply pystr_eqb_eq in E. subst k0.
      intros [[= <- <-] | H]; [now left | right; now right].
    + intros [H | H]; [right; now left|].
      destruct (IH H) as [? | ?]; [now left | right; now right].
Qed.

Lemma dict_set_keys {V} (d : dict V) (k : pystr) (v : V) :
  List.map fst (dict_set d k v) =
    if existsb (fun k0 => pystr_eqb k0 k) (List.map fst d)
    then List.map fst d else List.map fst d ++ [k].
Proof.
  induction d as [|[k0 v0] d IH]; cbn [dict_set List.map fst existsb app]; [reflexivity|].
  destruct (pystr_eqb k0 k) eqn:E; cbn [orb List.map fst]; [reflexivity|].
  rewrite IH. now destruct (existsb _ _).
Qed.

Lemma dict_set_NoDup {V} (d : dict V) (k : pystr) (v : V) :
  NoDup (List.map fst d) -> NoDup (List.map fst (dict_set d k v)).
Proof.
  intros H. rewrite dict_set_keys.
  destruct (existsb (fun k0 => pystr_eqb k0 k) (List.map fst d)) eqn:E; [exact H|].
  apply NoDup_app; [exact H | repeat constructor; intros [] |].
  intros x Hx [-> | []].
  assert (existsb (fun k0 => pystr_eqb k0 x) (List.map fst d) = true).
  { apply existsb_exists. exists x. split; [exact Hx | apply pystr_eqb_refl]. }
  congruence.
Qed.

(** ** The configuration reader, line by line *)

Lemma contains_middle (sep : N) (key value : pystr) :
  contains sep (key ++ sep :: value) = true.
Proof.
  unfold contains. rewrite existsb_app. cbn [existsb]. rewrite N.eqb_refl.
  now rewrite orb_true_r.
Qed.

(** What a line with an ['='] does, by the text on each side of the
    first ['=']. *)
Lemma config_line_cut (st : config_state) (line key value : pystr) :
  strip line = key ++ 61%N :: value ->
  contains 61 key = false ->
  startswith 35 (strip line) = false ->
  config_line st line =
    Ok (if pystr_eqb key (u8 "area")
        then {| params := dict_set (params st) (strip key)
                            (join (u8 ",") (known_codes (area_names value)));
                printed := printed st
                  ++ List.map unknown_area_line (unknown_names (area_names value)) |}
        else {| params := dict_set (params st) (strip key) (strip value);
                printed := printed st ++ [] |}).
Proof.
  intros Hs Hk Hc. unfold config_line. rewrite Hc, Hs.
  rewrite contains_middle, (split1_cut _ _ _ Hk).
  destruct (key ++ 61%N :: value) as [|c l] eqn:E; [destruct key; discriminate|].
  cbn [orb negb].
  destruct (pystr_eqb key (u8 "area")); [|reflexivity].
  fold (area_names value). now rewrite area_codes_spec.
Qed.

Lemma config_line_passed (st : config_state) (line : pystr) :
  effective line = false -> config_line st line = Ok st.
Proof.
  unfold effective, config_line.
  destruct (strip line) as [|c l]; [reflexivity|].
  cbn [startswith orb]. destruct (c =? 35)%N; [reflexivity|].
  cbn [negb andb]. now intros ->.
Qed.

Lemma effective_cut (line : pystr) :
  effective line = true ->
  exists key value,
    strip line = key ++ 61%N :: value /\ contains 61 key = false /\
    startswith 35 (strip line) = false.
Proof.
  unfold effective. destruct (strip line) as [|c l] eqn:E; [discriminate|].
  intros H. apply andb_true_iff in H as [Hc Heq].
  destruct (contains_cut _ _ Heq) as (key & value & Hcut & Hk).
  exists key, value. repeat split; try assumption.
  cbn [startswith]. now apply negb_true_iff.
Qed.


(** X2: a line [key=value] whose key is not [area] is cut at its first
    ['=']; afterwards the stripped key holds the stripped value (which
    may itself hold ['=']), every other key holds what it held, and
    nothing is printed. *)
Theorem config_line_stores (st : config_state) (line key value : pystr) :
  strip line = key ++ 61%N :: value ->
  contains 61 key = false ->
  startswith 35 (strip line) = false ->
  key <> u8 "area" ->
  exists st',
    config_line st line = Ok st' /\
    dict_get (params st') (strip key) = Some (strip value) /\
    (forall k, k <> strip key -> dict_get (params st') k = dict_get (params st) k) /\
    printed st' = printed st.
Proof.
  intros Hs Hk Hc Harea. rewrite (config_line_cut st _ _ _ Hs Hk Hc).
  apply pystr_eqb_neq in Harea. rewrite Harea.
  eexists. split; [reflexivity|]. cbn [params printed].
  split; [apply dict_get_set_same|]. split.
  - intros k Hne. now apply dict_get_set_other.
  - apply app_nil_r.
Qed.

Lemma config_line_stores_witness :
  let st := ConfigState [(u8 "keyword", u8 "java"); (u8 "ro", u8 "1")] [] in
  exists st',
    config_line st (u8 "  keyword = python=3 ") = Ok st' /\
    dict_get (params st') (strip (u8 "keyword ")) = Some (strip (u8 " python=3")) /\
    (forall k, k <> strip (u8 "keyword ") ->
               dict_get (params st') k = dict_get (params st) k) /\
    printed st' = printed st.
Proof.
  apply (config_line_stores
           (ConfigState [(u8 "keyword", u8 "java"); (u8 "ro", u8 "1")] [])
           (u8 "  keyword = python=3 ") (u8 "keyword ") (u8 " python=3")).
  - vm_compute. reflexivity.
  - vm_compute. reflexivity.
  - vm_compute. reflexivity.
  - vm_compute. discriminate.
Defined.

(** X3: a line that reads [area=...] once stripped stores under [area]
    the codes of the names the table has, in the order of the names and
    joined with commas, and prints one line for each name it does not
    have, in order; every name gives either a code or a line. *)
Theorem config_line_area_codes (st : config_state) (line value : pystr) :
  strip line = u8 "area=" ++ value ->
  exists st',
    config_line st line = Ok st' /\
    dict_get (params st') (u8 "area") =
      Some (join (u8 ",") (known_codes (area_names value))) /\
    printed st' =
      printed st ++ List.map unknown_area_line (unknown_names (area_names value)) /\
    List.length (known_codes (area_names value))
      + List.length (unknown_names (area_names value))
      = List.length (area_names value).
Proof.
  intros Hs.
  rewrite (config_line_cut st line (u8 "area") value Hs eq_refl
             ltac:(rewrite Hs; reflexivity)).
  change (pystr_eqb (u8 "area") (u8 "area")) with true. cbv iota.
  eexists. split; [reflexivity|]. cbn [params printed].
  change (strip (u8 "area")) with (u8 "area").
  split; [apply dict_get_set_same|]. split; [reflexivity|].
  unfold known_codes, unknown_names.
  induction (area_names value) as [|a names IH]; [reflexivity|].
  cbn [flat_map filter]. destruct (dict_get AREA_CODES a);
    cbn [app List.length]; rewrite <- IH; lia.
Qed.

Lemma config_line_area_codes_witness :
  exists st',
    config_line (ConfigState [] []) (u8 " area=台北市, 火星 ,新北市 ") = Ok st' /\
    dict_get (params st') (u8 "area") = Some (u8 "6001001000,6001002000") /\
    printed st' = [u8 "⚠️ 無法辨識地區名稱：火星"] /\
    (2 + 1 = 3)%nat.
Proof.
  apply (config_line_area_codes (ConfigState [] []) (u8 " area=台北市, 火星 ,新北市 ")
           (u8 "台北市, 火星 ,新北市")).
  vm_compute. reflexivity.
Defined.

(** X4: the blank lines, the comment lines and the lines without ['=']
    can be taken out of a file without changing what is read. *)
Theorem config_lines_effective (st : config_state) (lines : list pystr) :
  config_lines st lines = config_lines st (filter effective lines).
Proof.
  revert st. induction lines as [|line lines IH]; intros st; [reflexivity|].
  cbn [filter config_lines]. destruct (effective line) eqn:E.
  - cbn [config_lines]. destruct (config_line st line); cbn [bind]; [apply IH | reflexivity].
  - rewrite (config_line_passed _ _ E). cbn [bind]. apply IH.
Qed.

(** *** What the parameters keep *)

Lemma code_no_space (a c : pystr) (x : N) :
  dict_get AREA_CODES a = Some c -> In x c -> isspace x = false.
Proof.
  intros Ha Hx. apply dict_get_In in Ha.
  assert (H : forallb (fun p => forallb (fun y => negb (isspace y)) (snd p)) AREA_CODES = true)
    by (vm_compute; reflexivity).
  rewrite forallb_forall in H. specialize (H _ Ha). cbn [snd] in H.
  rewrite forallb_forall in H. specialize (H _ Hx). now apply negb_true_iff in H.
Qed.

Lemma join_chars (sep : pystr) (l : list pystr) (x : N) :
  In x (join sep l) -> In x sep \/ exists p, In p l /\ In x p.
Proof.
  induction l as [|p l IH]; cbn [join]; [intros []|].
  destruct l as [|q l].
  - intros H. right. exists p. split; [now left | exact H].
  - intros H. apply in_app_or in H as [H | H].
    + right. exists p. split; [now left | exact H].
    + apply in_app_or in H as [H | H]; [now left|].
      destruct (IH H) as [? | (p' & Hp & Hx)]; [now left|].
      right. exists p'. split; [now right | exact Hx].
Qed.

Lemma known_codes_trimmed (names : list pystr) :
  trimmed (join (u8 ",") (known_codes names)).
Proof.
  apply no_space_trimmed. intros x Hx.
  apply join_chars in Hx as [Hx | (c & Hc & Hx)].
  - cbn in Hx. destruct Hx as [<- | []]. reflexivity.
  - unfold known_codes in Hc. apply in_flat_map in Hc as (a & _ & Hc).
    destruct (dict_get AREA_CODES a) as [c'|] eqn:E; [|destruct Hc].
    destruct Hc as [<- | []]. exact (code_no_space _ _ _ E Hx).
Qed.

Lemma well_kept_set (d : dict pystr) (key value : pystr) :
  well_kept d -> contains 61 key = false -> trimmed value ->
  well_kept (dict_set d (strip key) value).
Proof.
  intros [Hnd Hall] Hk Hv. split; [now apply dict_set_NoDup|].
  intros k v Hin. apply dict_set_In in Hin as [[-> ->] | Hin]; [|now apply Hall].
  split; [now apply contains_strip|]. split; [apply strip_trimmed | exact Hv].
Qed.

Lemma config_line_well_kept (st st' : config_state) (line : pystr) :
  config_line st line = Ok st' -> well_kept (params st) -> well_kept (params st').
Proof.
  intros H Hw. destruct (effective line) eqn:E.
  - destruct (effective_cut _ E) as (key & value & Hs & Hk & Hc).
    rewrite (config_line_cut st _ _ _ Hs Hk Hc) in H. injection H as <-.
    destruct (pystr_eqb key (u8 "area")); cbn [params];
      apply well_kept_set; try assumption.
    + apply known_codes_trimmed.
    + apply strip_trimmed.
  - rewrite (config_line_passed _ _ E) in H. now injection H as <-.
Qed.

(** X5: in the parameters [read_config] returns no key occurs twice, no
    key holds an ['='], and neither a key nor a value has whitespace at
    its ends. *)
Theorem read_config_well_kept (filename : pystr) (file : option pystr)
    (st : config_state) :
  read_config filename file = Ok st -> well_kept (params st).
Proof.
  destruct file as [text|]; [|discriminate]. cbn [read_config].
  assert (Hlines : forall lines st0, well_kept (params st0) ->
                     config_lines st0 lines = Ok st -> well_kept (params st)).
  { induction lines as [|line lines IH]; intros st0 Hw H; cbn [config_lines] in H.
    - now injection H as <-.
    - destruct (config_line st0 line) as [st1|e] eqn:E; [|discriminate].
      cbn [bind] in H. apply (IH st1); [|exact H].
      exact (config_line_well_kept _ _ _ E Hw). }
  apply Hlines. split; [constructor | intros k v []].
Qed.

Lemma read_config_well_kept_witness :
  well_kept [(u8 "area", u8 "6001001000"); (u8 "keyword", u8 "python=3")].
Proof.
  exact (read_config_well_kept (u8 "config.txt")
           (Some (u8 " area = x
area=台北市
 keyword = python=3 "))
           (ConfigState [(u8 "area", u8 "6001001000"); (u8 "keyword", u8 "python=3")] [])
           eq_refl).
Defined.

(** ** The identifier of a listing *)

Lemma split_In_no_sep (sep : N) (s p : pystr) :
  In p (split sep s) -> contains sep p = false.
Proof.
  revert p. induction s as [|c s IH]; intros p; cbn [split].
  - intros [<- | []]. reflexivity.
  - destruct (c =? sep)%N eqn:E.
    + intros [<- | H]; [reflexivity | now apply IH].
    + destruct (split sep s) as [|w ws].
      * intros [<- | []]. unfold contains. cbn [existsb]. rewrite N.eqb_sym in E.
        now rewrite E.
      * intros [<- | H].
        -- unfold contains. cbn [existsb]. rewrite N.eqb_sym in E. rewrite E.
           apply (IH w). now left.
        -- apply IH. now right.
Qed.

Lemma split_nonempty (sep : N) (s : pystr) : split sep s <> [].
Proof.
  destruct s as [|c s]; cbn [split]; [discriminate|].
  destruct (c =? sep)%N; [discriminate|]. destruct (split sep s); discriminate.
Qed.

(** Joining the parts gives the string back. *)
Lemma split_join (sep : N) (s : pystr) : join [sep] (split sep s) = s.
Proof.
  induction s as [|c s IH]; [reflexivity|]. cbn [split].
  pose proof (split_nonempty sep s) as Hne.
  destruct (split sep s) as [|w ws]; [contradiction|].
  destruct (c =? sep)%N eqn:E.
  - apply N.eqb_eq in E. subst c.
    change (join [sep] ([] :: w :: ws)) with ([] ++ [sep] ++ join [sep] (w :: ws)).
    now rewrite IH.
  - rewrite <- IH. cbn [join]. destruct ws; reflexivity.
Qed.

Lemma join_first (sep : N) (p : pystr) (ps : list pystr) :
  exists after, join [sep] (p :: ps) = p ++ after /\
                (after = [] \/ exists r, after = sep :: r).
Proof.
  cbn [join]. destruct ps as [|q ps].
  - exists []. split; [symmetry; apply app_nil_r | now left].
  - exists ([sep] ++ join [sep] (q :: ps)). split; [reflexivity | right; cbn; eauto].
Qed.

Lemma join_last (sep : N) (p : pystr) (ps : list pystr) :
  exists before, join [sep] (p :: ps) = before ++ last (p :: ps) [] /\
                 (before = [] \/ exists b, before = b ++ [sep]).
Proof.
  revert p. induction ps as [|q ps IH]; intros p.
  - exists []. split; [reflexivity | now left].
  - destruct (IH q) as (before & Hj & _).
    exists (p ++ [sep] ++ before). split.
    + change (last (p :: q :: ps) []) with (last (q :: ps) []).
      change (join [sep] (p :: q :: ps)) with (p ++ [sep] ++ join [sep] (q :: ps)).
      rewrite Hj, <- !app_assoc. reflexivity.
    + right. destruct (IH q) as (before' & Hj' & Hb').
      assert (before' = before).
      { rewrite Hj in Hj'. now apply app_inv_tail in Hj'. }
      subst before'. destruct Hb' as [-> | (b & ->)].
      * exists p. reflexivity.
      * exists (p ++ [sep] ++ b). now rewrite <- !app_assoc.
Qed.

Lemma last_In {A} (x : A) (l : list A) (d : A) : In (last (x :: l) d) (x :: l).
Proof.
  revert x. induction l as [|y l IH]; intros x; [now left|].
  right. exact (IH y).
Qed.

Lemma contains_app (c : N) (a b : pystr) :
  contains c (a ++ b) = contains c a || contains c b.
Proof. apply existsb_app. Qed.

(** X6: the identifier of a reference is the text between the last ['/']
    before the first ['?'] and that ['?'] (or the end): it holds neither
    character, and the reference reads [before ++ id ++ after] with
    [before] empty or ending in ['/'] and [after] empty or starting
    with ['?'].  A reference that is not a string has no identifier:
    the call of [split] raises an [AttributeError]. *)
Theorem item_identifier_cut :
  (forall s, exists id before after,
     item_identifier (JStr s) = Ok id /\
     s = before ++ id ++ after /\
     (before = [] \/ exists b, before = b ++ [47%N]) /\
     (after = [] \/ exists r, after = 63%N :: r) /\
     contains 47 id = false /\ contains 63 id = false /\ contains 63 before = false) /\
  (forall v, (forall s, v <> JStr s) ->
     exists text, item_identifier v = Raise (Exn AttributeError text)).
Proof.
  split.
  - intros s. cbn [item_identifier].
    pose proof (split_nonempty 63 s) as Hne.
    pose proof (split_join 63 s) as Hjoin.
    pose proof (split_In_no_sep 63 s) as Hno.
    destruct (split 63 s) as [|t ts]; [contradiction|]. cbn [hd].
    destruct (join_first 63 t ts) as (after & Ha & Hafter). rewrite Hjoin in Ha.
    specialize (Hno t (or_introl eq_refl)).
    pose proof (split_nonempty 47 t) as Hne'.
    pose proof (split_join 47 t) as Hjoin'.
    pose proof (split_In_no_sep 47 t) as Hno'.
    destruct (split 47 t) as [|p ps]; [contradiction|].
    destruct (join_last 47 p ps) as (before & Hb & Hbefore). rewrite Hjoin' in Hb.
    specialize (Hno' _ (last_In p ps [])).
    exists (last (p :: ps) []), before, after.
    rewrite Hb, contains_app in Hno. apply orb_false_iff in Hno as [Hq1 Hq2].
    repeat split; try assumption.
    rewrite Ha, Hb at 1. now rewrite <- app_assoc.
  - intros v Hv. destruct v; try (eexists; reflexivity). now destruct (Hv s).
Qed.

(** ** Line breaks *)

Lemma has_crlf_cons (c : N) (t : pystr) :
  has_crlf (c :: t) = ((c =? 13)%N && match t with d :: _ => (d =? 10)%N | [] => false end)
                      || has_crlf t.
Proof. destruct t; cbn [has_crlf]; [now rewrite andb_false_r | reflexivity]. Qed.

Lemma replace_crlf_step (c d : N) (r : pystr) :
  replace_crlf (c :: d :: r) =
    if ((c =? 13) && (d =? 10))%N then 32%N :: replace_crlf r
    else c :: replace_crlf (d :: r).
Proof. reflexivity. Qed.

Lemma replace_crlf_clean_upto (n : nat) (s : pystr) :
  (List.length s <= n)%nat ->
  has_crlf (replace_crlf s) = false /\
  (forall r, replace_crlf s = 10%N :: r -> exists r', s = 10%N :: r').
Proof.
  revert s. induction n as [|n IH]; intros s Hlen.
  - destruct s; [|cbn in Hlen; lia]. split; [reflexivity | discriminate].
  - destruct s as [|c [|d r]].
    + split; [reflexivity | discriminate].
    + split; [reflexivity|]. cbn. intros r [= -> <-]. eauto.
    + cbn [List.length] in Hlen. rewrite replace_crlf_step.
      destruct ((c =? 13)%N && (d =? 10)%N) eqn:E.
      * destruct (IH r ltac:(lia)) as [Hc _]. split; [|discriminate].
        rewrite has_crlf_cons. now rewrite Hc.
      * destruct (IH (d :: r) ltac:(cbn [List.length]; lia)) as [Hc Hhead].
        split.
        -- rewrite has_crlf_cons, Hc, orb_false_r.
           destruct (replace_crlf (d :: r)) as [|x t] eqn:Et; [apply andb_false_r|].
           destruct (x =? 10)%N eqn:Ex; [|apply andb_false_r].
           apply N.eqb_eq in Ex. subst x.
           destruct (Hhead t eq_refl) as [r' [= -> _]].
           now rewrite andb_true_r in *.
        -- intros t [= -> _]. eauto.
Qed.

Lemma replace_crlf_clean (s : pystr) : has_crlf (replace_crlf s) = false.
Proof. exact (proj1 (replace_crlf_clean_upto (List.length s) s (le_n _))). Qed.

Lemma has_crlf_app (a b : pystr) :
  has_crlf (a ++ b) = false -> has_crlf a = false /\ has_crlf b = false.
Proof.
  induction a as [|c a IH]; [now split|].
  cbn [app]. rewrite !has_crlf_cons. intros H.
  apply orb_false_iff in H as [H1 H2]. destruct (IH H2) as [Ha Hb].
  split; [|exact Hb]. rewrite Ha, orb_false_r.
  destruct a as [|d a]; [apply andb_false_r | exact H1].
Qed.

Lemma strip_clean (s : pystr) : has_crlf s = false -> has_crlf (strip s) = false.
Proof.
  intros H. unfold strip.
  destruct (lstrip_suffix s) as [p Hp].
  destruct (rstrip_prefix (lstrip s)) as [q Hq].
  rewrite Hp in H. apply has_crlf_app in H as [_ H].
  rewrite Hq in H. now apply has_crlf_app in H as [H _].
Qed.

(** ** The other columns of a row *)

Section RowProperties.
Context {B : Builtins}.

Lemma py_or_empty (v : json) (k : pystr) (a r : json) :
  py_get v k (JStr []) = Ok a -> py_or a (Ok (JStr [])) = Ok r ->
  r = or_empty (field v k).
Proof.
  intros Ha Hr. apply py_get_Ok in Ha. subst a. unfold py_or, or_empty in *.
  destruct (field v k) as [x|].
  - destruct (truthy x); now injection Hr as <-.
  - cbn in Hr. now injection Hr as <-.
Qed.

(** Every column of a returned row. *)
Lemma normalize_parts (info : json) (job_id : pystr) (row : dict json) :
  normalize info job_id = Ok row ->
  let header := section_of info (u8 "header") in
  let detail := section_of info (u8 "jobDetail") in
  let condition := section_of info (u8 "condition") in
  let welfare := section_of info (u8 "welfare") in
  exists company_name job_name place language specialty skills description
         other_condition,
    row = [ (u8 "公司名稱", company_name);
            (u8 "職缺名稱", job_name);
            (u8 "地點", place);
            (u8 "工作經歷", entry_field condition (u8 "workExp"));
            (u8 "學歷", entry_field condition (u8 "edu"));
            (u8 "語言能力", language);
            (u8 "擅長工具", specialty);
            (u8 "工作技能", skills);
            (u8 "薪資", entry_field detail (u8 "salary"));
            (u8 "福利", entry_field welfare (u8 "welfare"));
            (u8 "職缺需求人數", entry_field detail (u8 "needEmp"));
            (u8 "工作內容", description);
            (u8 "其他條件", other_condition);
            (u8 "職缺更新日期", entry_field header (u8 "appearDate"));
            (u8 "職缺連結", JStr (job_url job_id)) ] /\
    job_name_of info detail header = Ok job_name /\
    other_condition_of info condition detail = Ok other_condition /\
    py_add (or_empty (field detail (u8 "addressRegion")))
           (or_empty (field detail (u8 "addressDetail"))) = Ok place /\
    py_replace_strip (or_empty (field detail (u8 "jobDescription"))) = Ok description.
Proof.
  unfold normalize. intros H.
  apply bind_Ok in H as (header & Hh & H). apply py_get_section in Hh.
  apply bind_Ok in H as (detail & Hd & H). apply py_get_section in Hd.
  apply bind_Ok in H as (condition & Hc & H). apply py_get_section in Hc.
  apply bind_Ok in H as (cust & _ & H).
  apply bind_Ok in H as (welfare & Hw & H). apply py_get_section in Hw.
  subst header detail condition welfare.
  apply bind_Ok in H as (company_name & _ & H).
  apply bind_Ok in H as (job_name & Hjob & H).
  apply bind_Ok in H as (language & _ & H).
  apply bind_Ok in H as (specialty & _ & H).
  apply bind_Ok in H as (skills & _ & H).
  apply bind_Ok in H as (other_condition & Hother & H).
  apply bind_Ok in H as (region & Hregion & H).
  apply bind_Ok in Hregion as (a1 & Ha1 & Hregion).
  apply (py_or_empty _ _ _ _ Ha1) in Hregion.
  apply bind_Ok in H as (address & Haddress & H).
  apply bind_Ok in Haddress as (a2 & Ha2 & Haddress).
  apply (py_or_empty _ _ _ _ Ha2) in Haddress.
  apply bind_Ok in H as (place & Hplace & H).
  apply bind_Ok in H as (work_exp & Hwe & H). apply py_get_entry in Hwe.
  apply bind_Ok in H as (edu & Hedu & H). apply py_get_entry in Hedu.
  apply bind_Ok in H as (salary & Hsal & H). apply py_get_entry in Hsal.
  apply bind_Ok in H as (benefits & Hben & H). apply py_get_entry in Hben.
  apply bind_Ok in H as (need_emp & Hne & H). apply py_get_entry in Hne.
  apply bind_Ok in H as (description & Hdescr & H).
  apply bind_Ok in Hdescr as (a3 & Ha3 & Hdescr).
  apply bind_Ok in Hdescr as (t & Ht & Hdescr).
  apply (py_or_empty _ _ _ _ Ha3) in Ht.
  apply bind_Ok in H as (appear_date & Had & H). apply py_get_entry in Had.
  injection H as <-. subst.
  exists company_name, job_name, place, language, specialty, skills, description,
         other_condition.
  repeat split; assumption.
Qed.

(** X7: the job title of a returned row is the first populated source
    among the name in the job-detail section, the name in the header
    section and the top-level name, and （未命名職缺） when none is
    populated. *)
Theorem job_name_fallback_chain (info : json) (job_id : pystr) (row : dict json) :
  normalize info job_id = Ok row ->
  dict_get row (u8 "職缺名稱") =
    Some (first_populated
            [ field (section_of info (u8 "jobDetail")) (u8 "jobName");
              field (section_of info (u8 "header")) (u8 "jobName");
              field info (u8 "jobName") ]
            (JStr (u8 "（未命名職缺）"))).
Proof.
  intros H. apply normalize_parts in H.
  destruct H as (company & job & place & lang & spec & skills & descr & other
                 & -> & Hjob & _).
  change (dict_get _ (u8 "職缺名稱")) with (Some job). f_equal.
  unfold job_name_of in Hjob.
  eapply chain_step; [exact Hjob|]. intros H1.
  eapply chain_step; [exact H1|]. intros H2.
  eapply chain_step; [exact H2|]. now intros [= <-].
Qed.

(** X8: a returned row has the fifteen columns in the order of the
    literal, and its link is made from the identifier alone, whatever
    the document holds. *)
Theorem row_columns (info : json) (job_id : pystr) (row : dict json) :
  normalize info job_id = Ok row ->
  List.map fst row = COLUMNS /\
  NoDup (List.map fst row) /\
  dict_get row (u8 "職缺連結") = Some (JStr (u8 "https://www.104.com.tw/job/" ++ job_id)).
Proof.
  intros H. apply normalize_parts in H.
  destruct H as (company & job & place & lang & spec & skills & descr & other & -> & _).
  split; [reflexivity|]. split; [|reflexivity].
  change (NoDup COLUMNS).
  assert (Hd : forall l : list pystr,
            (fix distinct (l : list pystr) : bool :=
               match l with
               | [] => true
               | x :: r => negb (existsb (pystr_eqb x) r) && distinct r
               end) l = true -> NoDup l).
  { induction l as [|x l IH]; [constructor|].
    intros Hx. apply andb_true_iff in Hx as [Hx Hl]. constructor; [|now apply IH].
    intros Hin. apply negb_true_iff in Hx.
    assert (existsb (pystr_eqb x) l = true)
      by (apply existsb_exists; exists x; split; [exact Hin | apply pystr_eqb_refl]).
    congruence. }
  apply Hd. vm_compute. reflexivity.
Qed.

(** X9: the experience, education, salary, benefits, headcount and date
    columns of a returned row are the values found under [workExp] and
    [edu] in the eligibility section, [salary] and [needEmp] in the
    job-detail section, [welfare] in the benefits section and
    [appearDate] in the header section, passed on as they are; a value
    that is not there gives the empty string. *)
Theorem direct_columns (info : json) (job_id : pystr) (row : dict json) :
  normalize info job_id = Ok row ->
  let header := section_of info (u8 "header") in
  let detail := section_of info (u8 "jobDetail") in
  let condition := section_of info (u8 "condition") in
  let welfare := section_of info (u8 "welfare") in
  dict_get row (u8 "工作經歷") = Some (entry_field condition (u8 "workExp")) /\
  dict_get row (u8 "學歷") = Some (entry_field condition (u8 "edu")) /\
  dict_get row (u8 "薪資") = Some (entry_field detail (u8 "salary")) /\
  dict_get row (u8 "福利") = Some (entry_field welfare (u8 "welfare")) /\
  dict_get row (u8 "職缺需求人數") = Some (entry_field detail (u8 "needEmp")) /\
  dict_get row (u8 "職缺更新日期") = Some (entry_field header (u8 "appearDate")) /\
  (forall section key, field section key = None -> entry_field section key = JStr []).
Proof.
  intros H. apply normalize_parts in H.
  destruct H as (company & job & place & lang & spec & skills & descr & other & -> & _).
  repeat split. intros section key Hf. unfold entry_field. now rewrite Hf.
Qed.

(** X10: when the region and the address of the job-detail section are
    strings, or absent or empty, the place of a returned row is the two
    texts one after the other, an absent or empty one counting as the
    empty string. *)
Theorem place_concatenation (info : json) (job_id : pystr) (row : dict json)
    (region address : pystr) :
  normalize info job_id = Ok row ->
  or_empty (field (section_of info (u8 "jobDetail")) (u8 "addressRegion")) = JStr region ->
  or_empty (field (section_of info (u8 "jobDetail")) (u8 "addressDetail")) = JStr address ->
  dict_get row (u8 "地點") = Some (JStr (region ++ address)).
Proof.
  intros H Hr Ha. apply normalize_parts in H.
  destruct H as (company & job & place & lang & spec & skills & descr & other
                 & -> & _ & _ & Hplace & _).
  rewrite Hr, Ha in Hplace. cbn [py_add] in Hplace. injection Hplace as <-.
  reflexivity.
Qed.

(** X11: in a returned row the description is a string: the text of
    [jobDescription] in the job-detail section (the empty string when
    it is absent or empty) with every carriage return and line feed
    pair turned into one blank and the whitespace at both ends taken
    off; no such pair and no whitespace at the ends is left. *)
Theorem description_cleaned (info : json) (job_id : pystr) (row : dict json) :
  normalize info job_id = Ok row ->
  exists text,
    or_empty (field (section_of info (u8 "jobDetail")) (u8 "jobDescription")) = JStr text /\
    dict_get row (u8 "工作內容") = Some (JStr (strip (replace_crlf text))) /\
    trimmed (strip (replace_crlf text)) /\
    has_crlf (strip (replace_crlf text)) = false.
Proof.
  intros H. apply normalize_parts in H.
  destruct H as (company & job & place & lang & spec & skills & descr & other
                 & -> & _ & _ & _ & Hdescr).
  destruct (or_empty _) as [| | | |text| |]; try discriminate.
  cbn [py_replace_strip] in Hdescr. injection Hdescr as <-.
  exists text. split; [reflexivity|]. split; [reflexivity|].
  split; [apply strip_trimmed | apply strip_clean, replace_crlf_clean].
Qed.

(** X12: in a returned row the other-conditions column is a string: the
    text of the first populated source among [other] in the eligibility
    section, [otherCondition] in the job-detail section and [other] in
    the top-level [requirement], the empty string when none is
    populated, cleaned as the description is. *)
Theorem other_condition_cleaned (info : json) (job_id : pystr) (row : dict json) :
  normalize info job_id = Ok row ->
  let source :=
    first_populated
      [ field (section_of info (u8 "condition")) (u8 "other");
        field (section_of info (u8 "jobDetail")) (u8 "otherCondition");
        field (section_of info (u8 "requirement")) (u8 "other") ]
      (JStr []) in
  dict_get row (u8 "其他條件") = Some (JStr (strip (replace_crlf (py_str source)))) /\
  trimmed (strip (replace_crlf (py_str source))) /\
  has_crlf (strip (replace_crlf (py_str source))) = false.
Proof.
  intros H source. apply normalize_parts in H.
  destruct H as (company & job & place & lang & spec & skills & descr & other
                 & -> & _ & Hother & _).
  split; [|split; [apply strip_trimmed | apply strip_clean, replace_crlf_clean]].
  change (dict_get _ (u8 "其他條件")) with (Some other). f_equal.
  unfold other_condition_of in Hother.
  apply bind_Ok in Hother as (a & Ha & Hother).
  apply bind_Ok in Hother as (v & Hv & Hother). injection Hother as <-.
  enough (v = source) as -> by reflexivity. unfold source.
  eapply chain_step; [rewrite Ha; cbn [bind]; exact Hv|]. intros H1.
  eapply chain_step; [exact H1|]. intros H2.
  apply bind_Ok in H2 as (r & Hr & H2). apply py_get_section in Hr. subst r.
  eapply chain_step; [exact H2|]. now intros [= <-].
Qed.

End RowProperties.

Lemma sample_row_returned : @normalize plain_builtins SAMPLE_INFO (u8 "abc") = Ok SAMPLE_ROW.
Proof. vm_compute. reflexivity. Qed.

Lemma job_name_fallback_chain_witness :
  dict_get SAMPLE_ROW (u8 "職缺名稱") = Some (JStr (u8 "資料工程師")).
Proof.
  exact (@job_name_fallback_chain plain_builtins SAMPLE_INFO (u8 "abc") SAMPLE_ROW
           sample_row_returned).
Defined.

Lemma row_columns_witness :
  List.map fst SAMPLE_ROW = COLUMNS /\
  NoDup (List.map fst SAMPLE_ROW) /\
  dict_get SAMPLE_ROW (u8 "職缺連結") = Some (JStr (u8 "https://www.104.com.tw/job/abc")).
Proof.
  exact (@row_columns plain_builtins SAMPLE_INFO (u8 "abc") SAMPLE_ROW sample_row_returned).
Defined.

Lemma direct_columns_witness :
  dict_get SAMPLE_ROW (u8 "工作經歷") = Some (JStr (u8 "2年以上")) /\
  dict_get SAMPLE_ROW (u8 "學歷") = Some (JStr (u8 "大學")) /\
  dict_get SAMPLE_ROW (u8 "薪資") = Some (JStr (u8 "月薪 50,000 元")) /\
  dict_get SAMPLE_ROW (u8 "福利") = Some (JStr (u8 "年終獎金")) /\
  dict_get SAMPLE_ROW (u8 "職缺需求人數") = Some (JStr (u8 "1~2人")) /\
  dict_get SAMPLE_ROW (u8 "職缺更新日期") = Some (JStr (u8 "2025/01/02")) /\
  (forall section key, field section key = None -> entry_field section key = JStr []).
Proof.
  exact (@direct_columns plain_builtins SAMPLE_INFO (u8 "abc") SAMPLE_ROW
           sample_row_returned).
Defined.

Lemma place_concatenation_witness :
  dict_get SAMPLE_ROW (u8 "地點") = Some (JStr (u8 "台北市信義區松高路1號")).
Proof.
  exact (@place_concatenation plain_builtins SAMPLE_INFO (u8 "abc") SAMPLE_ROW
           (u8 "台北市信義區") (u8 "松高路1號") sample_row_returned eq_refl eq_refl).
Defined.

Lemma description_cleaned_witness :
  exists text,
    or_empty (field (section_of SAMPLE_INFO (u8 "jobDetail")) (u8 "jobDescription"))
      = JStr text /\
    dict_get SAMPLE_ROW (u8 "工作內容") = Some (JStr (strip (replace_crlf text))) /\
    trimmed (strip (replace_crlf text)) /\
    has_crlf (strip (replace_crlf text)) = false.
Proof.
  exact (@description_cleaned plain_builtins SAMPLE_INFO (u8 "abc") SAMPLE_ROW
           sample_row_returned).
Defined.

(** The description of the sample: the pair in the middle is one blank,
    the pair and the blanks at the ends are gone. *)
Example description_of_sample :
  dict_get SAMPLE_ROW (u8 "工作內容") = Some (JStr (u8 "維護資料管線 撰寫報表")).
Proof. vm_compute. reflexivity. Qed.

Lemma other_condition_cleaned_witness :
  dict_get SAMPLE_ROW (u8 "其他條件") = Some (JStr (u8 "需輪班 可出差")).
Proof.
  exact (proj1 (@other_condition_cleaned plain_builtins SAMPLE_INFO (u8 "abc") SAMPLE_ROW
                  sample_row_returned)).
Defined.

(** ** The two fetchers *)

Lemma raise_for_status_Ok (res : response) :
  raise_for_status res = Ok tt <-> ~ (400 <= status_code res < 600)%Z.
Proof.
  unfold raise_for_status.
  destruct ((400 <=? status_code res)%Z && (status_code res <? 500)%Z) eqn:E1.
  - split; [discriminate|]. apply andb_true_iff in E1. lia.
  - destruct ((500 <=? status_code res)%Z && (status_code res <? 600)%Z) eqn:E2.
    + split; [discriminate|]. apply andb_true_iff in E2. lia.
    + split; [|reflexivity]. intros _. apply andb_false_iff in E1, E2. lia.
Qed.

(** X13: the detail fetcher hands on a document only when the request
    was answered, the status is not a failure, the body is a JSON object
    and the value under [data] is not empty; the document is that
    value. *)
Theorem detail_document_returns (o : http_outcome) (info : json) :
  detail_document o = Ok info <->
  exists res body,
    o = Ok res /\ ~ (400 <= status_code res < 600)%Z /\
    resp_json res = Ok (JObj body) /\
    dict_get body (u8 "data") = Some info /\ truthy info = true.
Proof.
  unfold detail_document. split.
  - intros H. apply bind_Ok in H as (res & -> & H).
    apply bind_Ok in H as ([] & Hs & H). apply raise_for_status_Ok in Hs.
    apply bind_Ok in H as (data & Hj & H).
    apply bind_Ok in H as (d & Hd & H).
    destruct data as [| | | | | |body]; try discriminate.
    cbn [py_get] in Hd. injection Hd as <-.
    destruct (dict_get body (u8 "data")) as [v|] eqn:E; [|discriminate].
    destruct (truthy v) eqn:Et; [|discriminate]. injection H as <-.
    exists res, body. repeat split; assumption.
  - intros (res & body & -> & Hs & Hj & Hd & Ht). cbn [bind].
    apply raise_for_status_Ok in Hs. rewrite Hs, Hj. cbn [bind py_get].
    rewrite Hd, Ht. reflexivity.
Qed.

(** X14: the listing fetcher sends the parameters as they are and
    returns a value exactly when the request was answered, the status is
    not a failure, the body is a JSON object and its [data] is an object
    with a [list]; what it returns is that [list], whatever it is. *)
Theorem fetch_job_list_returns (web : request -> http_outcome) (params : dict pystr)
    (l : json) :
  req_params (job_list_request params) = params /\
  (fetch_job_list web params = Ok l <->
   exists res body data,
     web (job_list_request params) = Ok res /\ ~ (400 <= status_code res < 600)%Z /\
     resp_json res = Ok (JObj body) /\
     dict_get body (u8 "data") = Some (JObj data) /\
     dict_get data (u8 "list") = Some l).
Proof.
  split; [reflexivity|]. unfold fetch_job_list. split.
  - intros H. apply bind_Ok in H as (res & Hw & H).
    apply bind_Ok in H as ([] & Hs & H). apply raise_for_status_Ok in Hs.
    apply bind_Ok in H as (body & Hj & H).
    apply bind_Ok in H as (d & Hd & H).
    destruct body as [| | | | | |body]; try discriminate. cbn [py_index] in Hd.
    destruct (dict_get body (u8 "data")) as [v|] eqn:E; [|discriminate].
    injection Hd as <-.
    destruct v as [| | | | | |data]; try discriminate. cbn [py_index] in H.
    destruct (dict_get data (u8 "list")) as [x|] eqn:El; [|discriminate].
    injection H as <-. exists res, body, data. repeat split; assumption.
  - intros (res & body & data & Hw & Hs & Hj & Hd & Hl).
    apply raise_for_status_Ok in Hs. rewrite Hw. cbn [bind]. rewrite Hs, Hj.
    cbn [bind py_index]. rewrite Hd. cbn [bind py_index]. now rewrite Hl.
Qed.

Section FetchProperties.
Context {B : Builtins}.
Variable web : request -> http_outcome.

(** X15: for a reference that is a string [fetch_job_detail] sends one
    request, to the content address of the identifier and with the page
    of the identifier as [Referer], and a row it returns has that page
    as its link; for any other reference it sends nothing and raises an
    [AttributeError]. *)
Theorem fetch_job_detail_request :
  (forall s, exists id,
     item_identifier (JStr s) = Ok id /\
     fst (fetch_job_detail web (JStr s)) = [EvGet (job_detail_request id)] /\
     req_url (job_detail_request id) = u8 "https://www.104.com.tw/job/ajax/content/" ++ id /\
     dict_get (req_headers (job_detail_request id)) (u8 "Referer")
       = Some (u8 "https://www.104.com.tw/job/" ++ id) /\
     (forall row, snd (fetch_job_detail web (JStr s)) = Ok row ->
        dict_get row (u8 "職缺連結") = Some (JStr (u8 "https://www.104.com.tw/job/" ++ id)))) /\
  (forall v, (forall s, v <> JStr s) ->
     fst (fetch_job_detail web v) = [] /\
     exists text, snd (fetch_job_detail web v) = Raise (Exn AttributeError text)).
Proof.
  split.
  - intros s. unfold fetch_job_detail. cbn [item_identifier].
    eexists. split; [reflexivity|]. cbn [fst snd].
    split; [reflexivity|]. split; [reflexivity|]. split; [reflexivity|].
    intros row H. apply bind_Ok in H as (info & _ & H).
    apply normalize_parts in H.
    destruct H as (company & job & place & lang & spec & skills & descr & other & -> & _).
    reflexivity.
  - intros v Hv. unfold fetch_job_detail.
    destruct v; try (split; [reflexivity | eexists; reflexivity]).
    now destruct (Hv s).
Qed.

End FetchProperties.

(** ** The loop and the script *)

Section RunProperties.
Context {B : Builtins}.
Variable web : request -> http_outcome.






(** X17: a listing without a reference ends the loop with the exception
    of the lookup: what was done for the listings before it stands, the
    listings after it are not fetched, and no rows are handed on.  A
    listing that is an object without [link] is such a listing; the
    exception is a [KeyError]. *)
Theorem crawl_stops_at_unlinked (before after : list json) (job : json) (e : exn)
    (acc : list (dict json)) :
  (forall j, In j before -> exists job_id, job_link j = Ok job_id) ->
  job_link job = Raise e ->
  crawl web (before ++ job :: after) acc = (fst (crawl web before acc), Raise e) /\
  (forall d, dict_get d (u8 "link") = None ->
     job_link (JObj d) = Raise (Exn KeyError (u8 "'link'"))).
Proof.
  intros Hlinks He. split.
  - revert acc. induction before as [|j before IH]; intros acc.
    + cbn [app]. rewrite (@crawl_unlinked B web _ after acc _ He). reflexivity.
    + assert (Hrest : forall x, In x before -> exists job_id, job_link x = Ok job_id)
        by (intros x Hx; apply Hlinks; now right).
      destruct (Hlinks j (or_introl eq_refl)) as [id Hj].
      cbn [app].
      destruct (snd (fetch_job_detail web id)) as [row|e'] eqn:Hf.
      * rewrite (@crawl_fetched B web _ _ (before ++ job :: after) acc _ Hj Hf),
                (@crawl_fetched B web _ _ before acc _ Hj Hf), (IH Hrest). reflexivity.
      * rewrite (@crawl_skipped B web _ _ (before ++ job :: after) acc _ Hj Hf),
                (@crawl_skipped B web _ _ before acc _ Hj Hf), (IH Hrest). reflexivity.
  - intros d Hd. unfold job_link. cbn [py_index]. now rewrite Hd.
Qed.


Lemma prints_no_export (lines : list pystr) :
  filter is_export (List.map EvPrint lines) = [].
Proof. induction lines as [|l lines IH]; [reflexivity | exact IH]. Qed.






End RunProperties.


Lemma crawl_stops_at_unlinked_witness :
  @crawl plain_builtins SAMPLE_WEB ([GONE] ++ BROKEN :: [OPEN1]) [] =
    (fst (@crawl plain_builtins SAMPLE_WEB [GONE] []), Raise (Exn KeyError (u8 "'link'"))) /\
  (forall d, dict_get d (u8 "link") = None ->
     job_link (JObj d) = Raise (Exn KeyError (u8 "'link'"))).
Proof.
  apply (@crawl_stops_at_unlinked plain_builtins SAMPLE_WEB [GONE] [OPEN1] BROKEN
           (Exn KeyError (u8 "'link'")) []).
  - intros j Hj. simpl in Hj. destruct Hj as [<- | []]. eexists. reflexivity.
  - reflexivity.
Defined.



(** ** More on the configuration file *)

(** X20: a line [key=value] puts its key after the keys already there
    when the key is new and leaves the keys and their order as they are
    when it is not: the parameters go to the search in the order in
    which the file first names them. *)
Theorem config_line_key_order (st : config_state) (line key value : pystr) :
  strip line = key ++ 61%N :: value ->
  contains 61 key = false ->
  startswith 35 (strip line) = false ->
  exists st',
    config_line st line = Ok st' /\
    List.map fst (params st') =
      match dict_get (params st) (strip key) with
      | Some _ => List.map fst (params st)
      | None => List.map fst (params st) ++ [strip key]
      end.
Proof.
  intros Hs Hk Hc. rewrite (config_line_cut st _ _ _ Hs Hk Hc).
  eexists. split; [reflexivity|].
  assert (Hkeys : forall v, List.map fst (dict_set (params st) (strip key) v) =
            match dict_get (params st) (strip key) with
            | Some _ => List.map fst (params st)
            | None => List.map fst (params st) ++ [strip key]
            end).
  { intros v. rewrite dict_set_keys. generalize (strip key) as k. intros k.
    induction (params st) as [|[k0 v0] d IH]; [reflexivity|].
    cbn [List.map fst existsb dict_get].
    destruct (pystr_eqb k0 k); [reflexivity|]. cbn [orb].
    destruct (existsb (fun k1 => pystr_eqb k1 k) (List.map fst d));
      destruct (dict_get d k); cbn [app] in *; congruence. }
  destruct (pystr_eqb key (u8 "area")); cbn [params]; apply Hkeys.
Qed.

Lemma config_line_key_order_witness :
  exists st',
    config_line (ConfigState [(u8 "keyword", u8 "java"); (u8 "ro", u8 "1")] [])
                (u8 "keyword=python") = Ok st' /\
    List.map fst (params st') = [u8 "keyword"; u8 "ro"].
Proof.
  apply (config_line_key_order
           (ConfigState [(u8 "keyword", u8 "java"); (u8 "ro", u8 "1")] [])
           (u8 "keyword=python") (u8 "keyword") (u8 "python"));
    vm_compute; reflexivity.
Defined.

Lemma readlines_to_lf_upto (n : nat) (s cur : pystr) :
  (List.length s <= n)%nat -> readlines cur (to_lf s) = readlines cur s.
Proof.
  revert s cur. induction n as [|n IH]; intros s cur Hlen.
  - destruct s; [reflexivity | cbn in Hlen; lia].
  - destruct s as [|c r]; [reflexivity|]. cbn [List.length] in Hlen.
    cbn [to_lf]. destruct (c =? 13)%N eqn:E13.
    + apply N.eqb_eq in E13. subst c. cbn [readlines N.eqb Pos.eqb].
      destruct r as [|d r'].
      * reflexivity.
      * cbn [List.length] in Hlen. destruct (d =? 10)%N eqn:E10.
        -- cbn [readlines N.eqb Pos.eqb]. now rewrite (IH r' [] ltac:(lia)).
        -- cbn [readlines N.eqb Pos.eqb].
           now rewrite (IH (d :: r') [] ltac:(cbn [List.length]; lia)).
    + cbn [readlines]. rewrite E13.
      destruct (c =? 10)%N; now rewrite (IH r _ ltac:(lia)).
Qed.

(** X21: the way the lines of the file end does not matter: a file with
    carriage returns, alone or before a line feed, is read as the same
    file with line feeds. *)
Theorem read_config_line_endings (filename text : pystr) :
  read_config filename (Some (to_lf text)) = read_config filename (Some text).
Proof.
  cbn [read_config]. now rewrite (readlines_to_lf_upto (List.length text) text [] (le_n _)).
Qed.

(** ** Documents that give a row *)

Lemma py_get_object (v : json) (k : pystr) (dflt x : json) :
  py_get v k dflt = Ok x -> is_object v.
Proof. destruct v; cbn [py_get]; try discriminate. intros _. now exists d. Qed.

(** X22: a row is returned only for a document that is an object whose
    header, job-detail, eligibility and benefits sections, where
    present, are objects, and whose list of languages, where present,
    can be run over. *)
Theorem normalize_needs_objects {B : Builtins} (info : json) (job_id : pystr)
    (row : dict json) :
  normalize info job_id = Ok row ->
  is_object info /\
  is_object (section_of info (u8 "header")) /\
  is_object (section_of info (u8 "jobDetail")) /\
  is_object (section_of info (u8 "condition")) /\
  is_object (section_of info (u8 "welfare")) /\
  exists entries,
    py_iter (match field (section_of info (u8 "condition")) (u8 "language") with
             | Some l => l
             | None => JList []
             end) = Ok entries.
Proof.
  unfold normalize. intros H.
  apply bind_Ok in H as (header & Hh & H). pose proof (py_get_object _ _ _ _ Hh) as Hinfo.
  apply py_get_section in Hh.
  apply bind_Ok in H as (detail & Hd & H). apply py_get_section in Hd.
  apply bind_Ok in H as (condition & Hc & H). apply py_get_section in Hc.
  apply bind_Ok in H as (cust & _ & H).
  apply bind_Ok in H as (welfare & Hw & H). apply py_get_section in Hw.
  subst header detail condition welfare.
  apply bind_Ok in H as (company_name & _ & H).
  apply bind_Ok in H as (job_name & Hjob & H).
  apply bind_Ok in H as (language & Hlang & H).
  do 9 (apply bind_Ok in H as (? & _ & H)).
  apply bind_Ok in H as (benefits & Hben & H).
  do 2 (apply bind_Ok in H as (? & _ & H)).
  apply bind_Ok in H as (appear_date & Had & H).
  unfold job_name_of in Hjob. apply bind_Ok in Hjob as (a & Ha & _).
  unfold language_of in Hlang. apply bind_Ok in Hlang as (l & Hl & Hlang).
  apply bind_Ok in Hlang as (entries & Hiter & _).
  pose proof (py_get_object _ _ _ _ Hl) as Hcond. apply py_get_Ok in Hl. subst l.
  repeat split; eauto using py_get_object.
Qed.

Lemma normalize_needs_objects_witness :
  is_object SAMPLE_INFO /\
  is_object (section_of SAMPLE_INFO (u8 "header")) /\
  is_object (section_of SAMPLE_INFO (u8 "jobDetail")) /\
  is_object (section_of SAMPLE_INFO (u8 "condition")) /\
  is_object (section_of SAMPLE_INFO (u8 "welfare")) /\
  exists entries,
    py_iter (match field (section_of SAMPLE_INFO (u8 "condition")) (u8 "language") with
             | Some l => l
             | None => JList []
             end) = Ok entries.
Proof.
  exact (@normalize_needs_objects plain_builtins SAMPLE_INFO (u8 "abc") SAMPLE_ROW
           sample_row_returned).
Defined.
